(** * Experiment bootstrap: component assembly and launch

    A shallow embedding of the orchestration code of the repository:

    - [bootstrap/factories.py]: the factories [make_datasets],
      [make_dataloaders], [make_model], [parallelize_model],
      [make_optimizer], [make_scheduler], [make_training_loss];
    - [bootstrap/launch_experiment.py]: the launch entry point built on
      the factories;
    - [launch_experiment.py]: the older, monolithic launch entry point,
      which holds the inline checkpoint resolution;
    - [test.py]: the script that seeds, forces testing mode and launches.

    Python objects live in a heap of attribute dictionaries; every call
    that leaves the orchestration code (a deferred constructor, a method
    of a live component, the file system, the console) is recorded as an
    event, so that a run yields a result (or an exception), a final heap
    and the list of the events it emitted, in order. *)

From Stdlib Require Import ZArith String Ascii List Permutation.
From stdpp Require Import base option list gmap strings fin_maps sorting pretty.

Local Open Scope Z_scope.
Local Open Scope string_scope.
Local Open Scope list_scope.
Local Open Scope stdpp_scope.

(** ** Values, objects and exceptions *)

(** Heap addresses of live instances. *)
Abbreviation loc := nat.

(** The Python values that travel through the orchestration code:
    [None], booleans, integers, strings and live instances.
    [VParams m] stands for the iterator returned by [m.parameters()].
    Floats and containers are not among them: a statement about every
    value is a statement about these. *)
Inductive Value :=
| VNone
| VBool (b : bool)
| VInt (z : Z)
| VStr (s : string)
| VRef (l : loc)
| VParams (model : loc).

(** Keyword arguments and attribute dictionaries. *)
Abbreviation kwargs := (gmap string Value).

(** A live instance: its classes (own class first, then the base
    classes, as [type(o).__mro__]) and its attributes. *)
Record Obj := MkObj { mro : list string; attrs : kwargs }.

Abbreviation Heap := (list Obj).

(** The exceptions of the code, by their Python class. *)
Inductive exn :=
| ValueError (msg : string)
| AttributeError (msg : string)
| TypeError (msg : string)
| IndexError (msg : string)
| FileNotFoundError (path : string)
| RuntimeError (msg : string)
| HydraZenUnsupportedPrimitiveError (msg : string).

Inductive result (A : Type) :=
| Ok (a : A)
| Raise (e : exn).
Arguments Ok {A} a.
Arguments Raise {A} e.

Definition is_ok {A} (r : result A) : bool :=
  match r with Ok _ => true | Raise _ => false end.

(** [Optional[...]] instances, and their passage as arguments. *)
Definition of_optional (o : option loc) : Value :=
  match o with Some l => VRef l | None => VNone end.

Definition of_optional_str (o : option string) : Value :=
  match o with Some s => VStr s | None => VNone end.

(** [v is None] *)
Definition is_None (v : Value) : bool :=
  match v with VNone => true | _ => false end.

(** ** Deferred constructors

    A [Partial] is what hydra-zen hands to the launch code: a
    [functools.partial] over a class, with keyword arguments already
    bound.  [target] is the class itself: from positional and keyword
    arguments it builds the attributes of a new instance, or raises. *)
Record Partial := MkPartial {
  bound : kwargs;
  target : list Value -> kwargs -> result Obj
}.

(** The values hydra-zen can put in a configuration, among the values
    modelled: a live instance, or the iterator over the parameters of
    one, is not such a value. *)
Definition hydra_supported (v : Value) : bool :=
  match v with
  | VNone | VBool _ | VInt _ | VStr _ => true
  | VRef _ | VParams _ => false
  end.

(** [hydra_zen.just(p)] on a partial: the configuration of the partial,
    rebuilt from every keyword it has bound, without calling the class.
    A bound value that is not supported makes it raise; otherwise the
    fields of the configuration are the bound keywords. *)
Definition just (p : Partial) : result kwargs :=
  if forallb (fun kv => hydra_supported kv.2) (map_to_list (bound p))
  then Ok (bound p)
  else Raise (HydraZenUnsupportedPrimitiveError
                "The configured value is not supported by Hydra").

(** The roles a called class can play. *)
Inductive Component :=
| CDataset | CModel | COptimizer | CScheduler | CLoss | CLoader
| CTrainer | CTester | CDataParallel | CGenerator.

#[global] Instance Component_eq_dec : EqDecision Component.
Proof. solve_decision. Defined.

(** ** Events *)

Inductive Event :=
| EvConsole (text : string)
| EvSeedEverything (seed : Z)
| EvCall (c : Component) (bound_kw : kwargs) (args : list Value) (kw : kwargs)
| EvMethod (receiver : loc) (name : string) (args : list Value) (kw : kwargs)
| EvDeviceCount
| EvToCuda (v : Value)
| EvExists (path : string)
| EvListdir (path : string)
| EvWandbInit (project name config : string)
| EvWandbWatch (model : Value) (log : string) (log_graph : bool).

(** The keyword arguments the class receives: [functools.partial] lets
    the keywords of the call override the bound ones
    ([{**self.keywords, **kw}]). *)
Definition effective (bound_kw kw : kwargs) : kwargs := kw ∪ bound_kw.

(** ** The monad of the orchestration code *)

Record Outcome (A : Type) := MkOutcome {
  res : result A;
  heap : Heap;
  evs : list Event
}.
Arguments MkOutcome {A} res heap evs.
Arguments res {A} o.
Arguments heap {A} o.
Arguments evs {A} o.

Definition M (A : Type) := Heap -> Outcome A.

Definition ret {A} (a : A) : M A := fun h => MkOutcome (Ok a) h [].

Definition bind {A B} (m : M A) (f : A -> M B) : M B :=
  fun h =>
    match m h with
    | MkOutcome (Ok a) h1 t1 =>
        match f a h1 with
        | MkOutcome r h2 t2 => MkOutcome r h2 (t1 ++ t2)
        end
    | MkOutcome (Raise e) h1 t1 => MkOutcome (Raise e) h1 t1
    end.

Definition raise {A} (e : exn) : M A := fun h => MkOutcome (Raise e) h [].

Definition emit (e : Event) : M unit := fun h => MkOutcome (Ok tt) h [e].

Definition lift {A} (r : result A) : M A :=
  match r with Ok a => ret a | Raise e => raise e end.

Declare Scope py_scope.
Delimit Scope py_scope with py.
Notation "x <- c1 ;; c2" := (bind c1 (fun x => c2))
  (at level 100, c1 at next level, right associativity) : py_scope.
Notation "c1 ;; c2" := (bind c1 (fun _ => c2))
  (at level 100, right associativity) : py_scope.
Local Open Scope py_scope.

(** *** Heap operations *)

Definition heap_add (h : Heap) (o : Obj) : Heap := h ++ [o].

Definition alloc (o : Obj) : M loc :=
  fun h => MkOutcome (Ok (length h)) (heap_add h o) [].

Definition deref (l : loc) : M Obj :=
  fun h => match h !! l with
           | Some o => MkOutcome (Ok o) h []
           | None => MkOutcome (Raise (RuntimeError "dangling reference")) h []
           end.

Definition set_attr (o : Obj) (name : string) (v : Value) : Obj :=
  MkObj (mro o) (<[name := v]> (attrs o)).

(** [l.name = v] *)
Definition setattr (l : loc) (name : string) (v : Value) : M unit :=
  fun h => match h !! l with
           | Some o => MkOutcome (Ok tt) (<[l := set_attr o name v]> h) []
           | None => MkOutcome (Raise (RuntimeError "dangling reference")) h []
           end.

Definition isinstance (o : Obj) (class : string) : bool :=
  bool_decide (class ∈ mro o).

(** *** Calls that leave the orchestration code *)

(** The call of a deferred constructor, in role [c], with positional
    arguments [args] and keyword arguments [kw]. *)
Definition invoke (c : Component) (p : Partial) (args : list Value) (kw : kwargs)
  : M loc :=
  emit (EvCall c (bound p) args kw) ;;
  o <- lift (target p args (effective (bound p) kw)) ;;
  alloc o.

(** [console.status(...)], [console.print(...)], [print(...)] *)
Definition console (text : string) : M unit := emit (EvConsole text).

(** Keyword arguments of a call written with explicit keywords and
    [**mapping] parts: a keyword given twice raises [TypeError]. *)
Definition merge_kwargs (a b : kwargs) : result kwargs :=
  if bool_decide (a ##ₘ b) then Ok (a ∪ b)
  else Raise (TypeError "got multiple values for keyword argument").

(** ** Strings and paths *)

(** [s.startswith(pre)] and [s.endswith(suf)] *)
Definition startswith (s pre : string) : bool := String.prefix pre s.

Definition endswith (s suf : string) : bool :=
  let n := String.length s in
  let m := String.length suf in
  (m <=? n)%nat && String.eqb (substring (n - m) m s) suf.

(** [os.path.basename]: what follows the last slash. *)
Fixpoint basename_from (p cur : string) : string :=
  match p with
  | EmptyString => cur
  | String c p' =>
      if Ascii.eqb c "/" then basename_from p' ""
      else basename_from p' (cur +:+ String c "")
  end.

Definition basename (p : string) : string := basename_from p "".

(** [os.path.join] (posixpath): a component that starts with a slash
    discards what precedes it. *)
Definition join_step (path b : string) : string :=
  if startswith b "/" then b
  else if String.eqb path "" || endswith path "/" then path +:+ b
  else path +:+ "/" +:+ b.

Definition os_path_join (a : string) (p : list string) : string :=
  fold_left join_step p a.

(** The order of [sorted] on [str]: lexicographic, character by
    character.  File names are kept as byte strings; on UTF-8 the order
    of the bytes is the order of the code points. *)
Definition str_le (s1 s2 : string) : Prop := String.leb s1 s2.

#[global] Instance str_le_dec : RelDecision str_le.
Proof. intros s1 s2. unfold str_le. apply _. Defined.

Definition sorted (l : list string) : list string := merge_sort str_le l.

(** ** The run descriptor *)

(** Modelled from the spec: the declaration of [RunConfig]
    ([conf/experiment.py]) is not among the sources; its fields are the
    ones the run descriptor of the specification lists, which are also
    the ones the launch code reads. *)
Record RunConfig := MkRunConfig {
  training_mode : bool;
  seed : Z;
  epochs : Z;
  val_every : Z;
  viz_every : Z;
  viz_train_every : Z;
  viz_num_samples : Z;
  load_from : option string
}.

(** [dataclasses.asdict(run)] *)
Definition asdict (run : RunConfig) : kwargs :=
  {[ "training_mode" := VBool (training_mode run);
     "seed" := VInt (seed run);
     "epochs" := VInt (epochs run);
     "val_every" := VInt (val_every run);
     "viz_every" := VInt (viz_every run);
     "viz_train_every" := VInt (viz_train_every run);
     "viz_num_samples" := VInt (viz_num_samples run);
     "load_from" := of_optional_str (load_from run) ]}.

(** What [hydra_zen.to_yaml] is given. *)
Inductive ConfEntry :=
| ConfStr (s : string)
| ConfRun (run : RunConfig)
| ConfPartial (p : Partial).

(** ** The environment of a launch

    Project constants, the machine, the file system and the helpers
    that are not part of the orchestration code. *)
Record Env := MkEnv {
  (** [conf.project] *)
  REPRODUCIBLE : bool;
  USE_WANDB : bool;
  PROJECT_NAME : string;
  (** [torch.cuda.device_count()] *)
  cuda_device_count : Z;
  (** [HydraConfig.get().runtime.output_dir] *)
  output_dir : string;
  (** [os.path.exists] and [os.listdir] *)
  path_exists : string -> bool;
  listdir : string -> result (list string);
  (** [hydra.utils.to_absolute_path] *)
  to_absolute_path : string -> string;
  (** [hydra_zen.to_yaml] *)
  to_yaml : list (string * ConfEntry) -> string;
  (** what [utils.to_cuda_] returns *)
  to_cuda_result : Value -> Value;
  (** the class [model.TransparentDataParallel] *)
  TransparentDataParallel : list Value -> kwargs -> result Obj;
  (** the outcome of a method of a live driver *)
  method : Heap -> loc -> string -> list Value -> kwargs -> result unit
}.

Section Primitives.

Variable env : Env.

Definition exists_ (path : string) : M bool :=
  emit (EvExists path) ;; ret (path_exists env path).

Definition os_listdir (path : string) : M (list string) :=
  emit (EvListdir path) ;; lift (listdir env path).

Definition device_count : M Z :=
  emit EvDeviceCount ;; ret (cuda_device_count env).

Definition to_cuda_ (v : Value) : M Value :=
  emit (EvToCuda v) ;; ret (to_cuda_result env v).

(** A method of a live driver, called with keyword arguments [kw]. *)
Definition call_method (receiver : loc) (name : string) (kw : kwargs) : M unit :=
  emit (EvMethod receiver name [] kw) ;;
  fun h => lift (method env h receiver name [] kw) h.

(** [torch.Generator()] *)
Definition new_generator : M loc :=
  emit (EvCall CGenerator ∅ [] ∅) ;;
  alloc (MkObj ["torch.Generator"] ∅).

(** The seeds a generator takes: the unsigned and the signed 64-bit
    integers. *)
Definition seed_fits (seed : Z) : bool :=
  (- 2 ^ 63 <=? seed)%Z && (seed <? 2 ^ 64)%Z.

(** [generator.manual_seed(seed)]: a seed that does not fit raises. *)
Definition manual_seed (generator : loc) (seed : Z) : M unit :=
  emit (EvMethod generator "manual_seed" [VInt seed] ∅) ;;
  if seed_fits seed then ret tt
  else raise (ValueError "Overflow when unpacking long long").

End Primitives.

(** [conf.attr] on the configuration of a deferred constructor *)
Definition getattr_conf (conf : kwargs) (attr : string) : M Value :=
  match conf !! attr with
  | Some v => ret v
  | None => raise (AttributeError attr)
  end.

(** [v ** 2], for the values a configuration can hold (an instance is
    not one of them, see [just]). *)
Definition pow2 (v : Value) : result Value :=
  match v with
  | VInt z => Ok (VInt (z ^ 2))
  | VBool b => Ok (VInt (if b then 1 else 0))
  | _ => Raise (TypeError "unsupported operand type(s) for ** or pow()")
  end.

(** ** bootstrap/factories.py *)

Module Factories.
Section WithEnv.

Variable env : Env.

Definition make_datasets (training_mode : bool) (seed : Z)
    (dataset_partial : Partial) : M (option loc * option loc * option loc) :=
  console "Loading datasets..." ;;
  if training_mode then
    train_dataset <- invoke CDataset dataset_partial []
                       {[ "split" := VStr "train"; "seed" := VInt seed ]} ;;
    val_dataset <- invoke CDataset dataset_partial []
                     {[ "split" := VStr "val"; "seed" := VInt seed ]} ;;
    ret (Some train_dataset, Some val_dataset, None)
  else
    test_dataset <- invoke CDataset dataset_partial []
                      {[ "split" := VStr "test"; "augment" := VBool false;
                         "seed" := VInt seed ]} ;;
    ret (None, None, Some test_dataset).

Definition make_dataloaders (data_loader_partial : Partial)
    (train_dataset val_dataset test_dataset : option loc)
    (training_mode : bool) (seed : Z)
  : M (option loc * option loc * option loc) :=
  generator <- (if REPRODUCIBLE env then
                  generator <- new_generator ;;
                  manual_seed generator seed ;;
                  ret (Some generator)
                else ret None) ;;
  if training_mode then
    match train_dataset, val_dataset with
    | Some train_dataset, Some val_dataset =>
        train_loader_inst <-
          invoke CLoader data_loader_partial [VRef train_dataset]
            {[ "generator" := of_optional generator ]} ;;
        val_loader_inst <-
          invoke CLoader data_loader_partial [VRef val_dataset]
            {[ "generator" := of_optional generator;
               "shuffle" := VBool false; "drop_last" := VBool false ]} ;;
        ret (Some train_loader_inst, Some val_loader_inst, None)
    | _, _ =>
        raise (ValueError
          "train_dataset and val_dataset must be defined in training mode!")
    end
  else
    match test_dataset with
    | Some test_dataset =>
        test_loader_inst <-
          invoke CLoader data_loader_partial [VRef test_dataset]
            {[ "generator" := of_optional generator;
               "shuffle" := VBool false; "drop_last" := VBool false ]} ;;
        ret (None, None, Some test_loader_inst)
    | None =>
        raise (ValueError "test_dataset must be defined in testing mode!")
    end.

Definition make_model (model_partial dataset : Partial) : M loc :=
  console "Loading model..." ;;
  conf <- lift (just dataset) ;;
  img_dim <- getattr_conf conf "img_dim" ;;
  encoder_input_dim <- lift (pow2 img_dim) ;;
  model_inst <- invoke CModel model_partial []
                  {[ "encoder_input_dim" := encoder_input_dim ]} ;;
  ret model_inst.

Definition parallelize_model (model : loc) : M loc :=
  n <- device_count env ;;
  console ("[*] Number of GPUs: " +:+ pretty n) ;;
  n <- device_count env ;;
  if (1 <? n)%Z then
    n <- device_count env ;;
    console ("-> Using " +:+ pretty n +:+ " GPUs!") ;;
    invoke CDataParallel (MkPartial ∅ (TransparentDataParallel env))
      [VRef model] ∅
  else ret model.

Definition make_optimizer (optimizer_partial : Partial) (model : loc) : M loc :=
  invoke COptimizer optimizer_partial [VParams model] ∅.

Definition CosineAnnealingLR : string :=
  "torch.optim.lr_scheduler.CosineAnnealingLR".

Definition make_scheduler (scheduler_partial : Partial) (optimizer : loc)
    (epochs : Z) : M loc :=
  scheduler <- invoke CScheduler scheduler_partial [VRef optimizer] ∅ ;;
  o <- deref scheduler ;;
  (if isinstance o CosineAnnealingLR
   then setattr scheduler "T_max" (VInt epochs)
   else ret tt) ;;
  ret scheduler.

Definition make_training_loss (training_mode : bool)
    (training_loss_partial : Partial) : M (option loc) :=
  if training_mode then
    training_loss <- invoke CLoss training_loss_partial [] ∅ ;;
    ret (Some training_loss)
  else ret None.
End WithEnv.
End Factories.

(** ** launch_experiment.py: the monolithic entry point *)

Module Monolith.
Section WithEnv.

Variable env : Env.

(** The files a run identifier can resume from: checkpoint files, and
    outside training mode not the ones named [last...]. *)
Definition eligible (training_mode : bool) (f : string) : bool :=
  endswith f ".ckpt"
  && (if negb training_mode then negb (startswith f "last") else true).

(** The block of [launch_experiment] that computes [model_ckpt_path]
    from [run.load_from] and [run.training_mode]. *)
Definition resolve_checkpoint (load_from : option string)
    (training_mode : bool) : M (option string) :=
  match load_from with
  | None => ret None
  | Some load_from =>
      if endswith load_from ".ckpt" then
        let model_ckpt_path := to_absolute_path env load_from in
        found <- exists_ env model_ckpt_path ;;
        if negb found then
          raise (ValueError ("File " +:+ model_ckpt_path +:+ " does not exist!"))
        else ret (Some model_ckpt_path)
      else
        files <- os_listdir env
                   (to_absolute_path env ("runs/" +:+ load_from +:+ "/")) ;;
        let run_models := sorted (List.filter (eligible training_mode) files) in
        if (length run_models <? 1)%nat then
          raise (ValueError ("No model found in runs/" +:+ load_from +:+ "/"))
        else
          match last run_models with
          | Some f =>
              ret (Some (to_absolute_path env
                           (os_path_join "runs" [load_from; f])))
          | None => raise (IndexError "list index out of range")
          end
  end.

Definition launch_experiment (run : RunConfig)
    (data_loader optimizer scheduler trainer tester dataset model
       training_loss : Partial) : M unit :=
  let run_name := basename (output_dir env) in
  console ("========================= Running " +:+ run_name
           +:+ " =========================") ;;
  let exp_conf :=
    to_yaml env
      [("run_name", ConfStr run_name); ("run_conf", ConfRun run);
       ("dataset", ConfPartial dataset); ("model", ConfPartial model);
       ("optimizer", ConfPartial optimizer);
       ("scheduler", ConfPartial scheduler);
       ("training_loss", ConfPartial training_loss)] in
  console ("Experiment config:" +:+ exp_conf) ;;
  (* Partials instantiation *)
  conf <- lift (just dataset) ;;
  img_dim <- getattr_conf conf "img_dim" ;;
  encoder_input_dim <- lift (pow2 img_dim) ;;
  model_inst <- invoke CModel model []
                  {[ "encoder_input_dim" := encoder_input_dim ]} ;;
  console "model_inst" ;;
  console "Number of parameters" ;;
  console "Number of trainable parameters" ;;
  datasets <-
    (if training_mode run then
       train_dataset <- invoke CDataset dataset []
                          {[ "split" := VStr "train"; "seed" := VInt (seed run) ]} ;;
       val_dataset <- invoke CDataset dataset []
                        {[ "split" := VStr "val"; "seed" := VInt (seed run) ]} ;;
       ret (Some train_dataset, Some val_dataset, None)
     else
       test_dataset <- invoke CDataset dataset []
                         {[ "split" := VStr "test"; "augment" := VBool false;
                            "seed" := VInt (seed run) ]} ;;
       ret (None, None, Some test_dataset)) ;;
  let '(train_dataset, val_dataset, test_dataset) := datasets in
  opt_inst <- invoke COptimizer optimizer [VParams model_inst] ∅ ;;
  scheduler_inst <- invoke CScheduler scheduler [VRef opt_inst] ∅ ;;
  o <- deref scheduler_inst ;;
  (if isinstance o Factories.CosineAnnealingLR
   then setattr scheduler_inst "T_max" (VInt (epochs run))
   else ret tt) ;;
  (* Multi GPUs *)
  n <- device_count env ;;
  console ("[*] Number of GPUs: " +:+ pretty n) ;;
  n <- device_count env ;;
  model_inst <-
    (if (1 <? n)%Z then
       n <- device_count env ;;
       console ("-> Using " +:+ pretty n +:+ " GPUs!") ;;
       invoke CDataParallel (MkPartial ∅ (TransparentDataParallel env))
         [VRef model_inst] ∅
     else ret model_inst) ;;
  training_loss_inst <-
    (if training_mode run then
       training_loss_inst <- invoke CLoss training_loss [] ∅ ;;
       ret (Some training_loss_inst)
     else ret None) ;;
  (* CUDA *)
  model_inst <- to_cuda_ env (VRef model_inst) ;;
  training_loss_inst <- to_cuda_ env (of_optional training_loss_inst) ;;
  (* Weights & Biases *)
  (if USE_WANDB env then
     emit (EvWandbInit (PROJECT_NAME env) run_name exp_conf) ;;
     emit (EvWandbWatch model_inst "all" true)
   else ret tt) ;;
  (* Reproducibility of data loaders *)
  g <- (if REPRODUCIBLE env then
          g <- new_generator ;;
          manual_seed g (seed run) ;;
          ret (Some g)
        else ret None) ;;
  loaders <-
    (if training_mode run then
       match train_dataset, val_dataset with
       | Some train_dataset, Some val_dataset =>
           train_loader_inst <-
             invoke CLoader data_loader [VRef train_dataset]
               {[ "generator" := of_optional g ]} ;;
           val_loader_inst <-
             invoke CLoader data_loader [VRef val_dataset]
               {[ "generator" := of_optional g;
                  "shuffle" := VBool false; "drop_last" := VBool false ]} ;;
           ret (Some train_loader_inst, Some val_loader_inst, None)
       | _, _ =>
           raise (ValueError
             "train_dataset and val_dataset must be defined in training mode!")
       end
     else
       match test_dataset with
       | Some test_dataset =>
           test_loader_inst <-
             invoke CLoader data_loader [VRef test_dataset]
               {[ "generator" := of_optional g;
                  "shuffle" := VBool false; "drop_last" := VBool false ]} ;;
           ret (None, None, Some test_loader_inst)
       | None =>
           raise (ValueError "test_dataset must be defined in testing mode!")
       end) ;;
  let '(train_loader_inst, val_loader_inst, test_loader_inst) := loaders in
  (* Training *)
  model_ckpt_path <- resolve_checkpoint (load_from run) (training_mode run) ;;
  if training_mode run then
    if is_None training_loss_inst then
      raise (ValueError "training_loss must be defined in training mode!")
    else
        match val_loader_inst, train_loader_inst with
        | Some val_loader_inst, Some train_loader_inst =>
            kw <- lift (merge_kwargs
                          {[ "run_name" := VStr run_name;
                             "model" := model_inst;
                             "opt" := VRef opt_inst;
                             "scheduler" := VRef scheduler_inst;
                             "train_loader" := VRef train_loader_inst;
                             "val_loader" := VRef val_loader_inst;
                             "training_loss" := training_loss_inst ]}
                          (asdict run)) ;;
            driver <- invoke CTrainer trainer [] kw ;;
            call_method env driver "train"
              {[ "epochs" := VInt (epochs run);
                 "val_every" := VInt (val_every run);
                 "visualize_every" := VInt (viz_every run);
                 "visualize_train_every" := VInt (viz_train_every run);
                 "visualize_n_samples" := VInt (viz_num_samples run);
                 "model_ckpt_path" := of_optional_str model_ckpt_path ]}
        | _, _ =>
            raise (ValueError
              "val_loader and train_loader must be defined in training mode!")
        end
  else
    match test_loader_inst with
    | None => raise (ValueError "test_loader must be defined in testing mode!")
    | Some test_loader_inst =>
        driver <- invoke CTester tester []
                    {[ "run_name" := VStr run_name;
                       "model" := model_inst;
                       "data_loader" := VRef test_loader_inst;
                       "model_ckpt_path" := of_optional_str model_ckpt_path;
                       "training_loss" := training_loss_inst ]} ;;
        kw <- lift (merge_kwargs {[ "visualize_every" := VInt (viz_every run) ]}
                      (asdict run)) ;;
        call_method env driver "test" kw
    end.

End WithEnv.
End Monolith.

(** ** bootstrap/launch_experiment.py: the entry point on the factories *)

Module Bootstrap.
Section WithEnv.

Variable env : Env.

Definition print_config (run_name exp_conf : string) : M unit :=
  console ("Running " +:+ run_name) ;;
  console "rule" ;;
  console ("Experiment configuration" +:+ exp_conf).

Definition print_model (model : Value) : M unit :=
  console "Model architecture" ;;
  console "rule".

Definition init_wandb (run_name : string) (model : Value) (exp_conf : string)
    (log : string) (log_graph : bool) : M unit :=
  if USE_WANDB env then
    console "Initializing Weights & Biases..." ;;
    emit (EvWandbInit (PROJECT_NAME env) run_name exp_conf) ;;
    emit (EvWandbWatch model log log_graph)
  else ret tt.

(** Modelled from the spec: [utils.load_model_ckpt] is not among the
    sources.  The specification gives checkpoint resolution one
    contract (null, direct path, run identifier), which is the one the
    monolithic entry point implements inline. *)
Definition load_model_ckpt (load_from : option string) (training_mode : bool)
  : M (option string) :=
  Monolith.resolve_checkpoint env load_from training_mode.

Definition launch_experiment (run : RunConfig)
    (data_loader optimizer scheduler trainer tester dataset model
       training_loss : Partial) : M unit :=
  let run_name := basename (output_dir env) in
  let exp_conf :=
    to_yaml env
      [("run_conf", ConfRun run);
       ("dataset", ConfPartial dataset); ("model", ConfPartial model);
       ("optimizer", ConfPartial optimizer);
       ("scheduler", ConfPartial scheduler);
       ("training_loss", ConfPartial training_loss)] in
  print_config run_name exp_conf ;;
  (* Partials instantiation *)
  model_inst <- Factories.make_model model dataset ;;
  print_model (VRef model_inst) ;;
  datasets <- Factories.make_datasets (training_mode run) (seed run) dataset ;;
  let '(train_dataset, val_dataset, test_dataset) := datasets in
  opt_inst <- Factories.make_optimizer optimizer model_inst ;;
  scheduler_inst <- Factories.make_scheduler scheduler opt_inst (epochs run) ;;
  model_inst <- Factories.parallelize_model env model_inst ;;
  model_inst <- to_cuda_ env (VRef model_inst) ;;
  training_loss_inst <-
    Factories.make_training_loss (training_mode run) training_loss ;;
  training_loss_inst <- to_cuda_ env (of_optional training_loss_inst) ;;
  loaders <- Factories.make_dataloaders env data_loader train_dataset
               val_dataset test_dataset (training_mode run) (seed run) ;;
  let '(train_loader_inst, val_loader_inst, test_loader_inst) := loaders in
  init_wandb run_name model_inst exp_conf "gradients" false ;;
  (* Training *)
  model_ckpt_path <- load_model_ckpt (load_from run) (training_mode run) ;;
  let common_args : kwargs :=
    {[ "run_name" := VStr run_name;
       "model" := model_inst;
       "model_ckpt_path" := of_optional_str model_ckpt_path;
       "training_loss" := training_loss_inst ]} in
  if training_mode run then
    if is_None training_loss_inst then
      raise (ValueError "training_loss must be defined in training mode!")
    else
        match val_loader_inst, train_loader_inst with
        | Some val_loader_inst, Some train_loader_inst =>
            kw <- lift (merge_kwargs
                          {[ "train_loader" := VRef train_loader_inst;
                             "val_loader" := VRef val_loader_inst;
                             "opt" := VRef opt_inst;
                             "scheduler" := VRef scheduler_inst ]}
                          common_args) ;;
            kw <- lift (merge_kwargs kw (asdict run)) ;;
            driver <- invoke CTrainer trainer [] kw ;;
            call_method env driver "train"
              {[ "epochs" := VInt (epochs run);
                 "val_every" := VInt (val_every run);
                 "visualize_every" := VInt (viz_every run);
                 "visualize_train_every" := VInt (viz_train_every run);
                 "visualize_n_samples" := VInt (viz_num_samples run) ]}
        | _, _ =>
            raise (ValueError
              "val_loader and train_loader must be defined in training mode!")
        end
  else
    match test_loader_inst with
    | None => raise (ValueError "test_loader must be defined in testing mode!")
    | Some test_loader_inst =>
        kw <- lift (merge_kwargs {[ "data_loader" := VRef test_loader_inst ]}
                      common_args) ;;
        driver <- invoke CTester tester [] kw ;;
        kw <- lift (merge_kwargs {[ "visualize_every" := VInt (viz_every run) ]}
                      (asdict run)) ;;
        call_method env driver "test" kw
    end.

End WithEnv.
End Bootstrap.

(** ** test.py *)

Module Test.
Section WithEnv.

Variable env : Env.

(** The configuration hydra-zen passes to the pre-call hooks and then
    to [launch_experiment]. *)
Record Cfg := MkCfg {
  cfg_run : RunConfig;
  cfg_data_loader : Partial;
  cfg_optimizer : Partial;
  cfg_scheduler : Partial;
  cfg_trainer : Partial;
  cfg_tester : Partial;
  cfg_dataset : Partial;
  cfg_model : Partial;
  cfg_training_loss : Partial
}.

(** [utils.seed_everything] *)
Definition seed_everything (seed : Z) : M unit := emit (EvSeedEverything seed).

Definition set_run (cfg : Cfg) (run : RunConfig) : Cfg :=
  MkCfg run (cfg_data_loader cfg) (cfg_optimizer cfg) (cfg_scheduler cfg)
    (cfg_trainer cfg) (cfg_tester cfg) (cfg_dataset cfg) (cfg_model cfg)
    (cfg_training_loss cfg).

Definition set_test_mode (cfg : Cfg) : Cfg :=
  let run := cfg_run cfg in
  set_run cfg
    (MkRunConfig false (seed run) (epochs run) (val_every run) (viz_every run)
       (viz_train_every run) (viz_num_samples run) (load_from run)).

(** [zen(launch_experiment, pre_call=[seed, set_test_mode]).hydra_main(...)]:
    the hooks run on the configuration, in order, then the entry point
    is called with its fields. *)
Definition main (cfg : Cfg) : M unit :=
  (if REPRODUCIBLE env then seed_everything (seed (cfg_run cfg)) else ret tt) ;;
  let cfg := set_test_mode cfg in
  Bootstrap.launch_experiment env (cfg_run cfg) (cfg_data_loader cfg)
    (cfg_optimizer cfg) (cfg_scheduler cfg) (cfg_trainer cfg) (cfg_tester cfg)
    (cfg_dataset cfg) (cfg_model cfg) (cfg_training_loss cfg).

End WithEnv.
End Test.

(** ** A sample configuration

    Classes that keep the keyword arguments they receive as attributes,
    used to run the code on concrete inputs. *)

Definition keeps (class : list string) : list Value -> kwargs -> result Obj :=
  fun _ kw => Ok (MkObj class kw).

Definition sample_dataset : Partial :=
  MkPartial {[ "img_dim" := VInt 32; "augment" := VBool true ]}
    (keeps ["Dataset"]).

Definition sample_model : Partial := MkPartial ∅ (keeps ["Model"]).

Definition sample_optimizer : Partial :=
  MkPartial {[ "lr" := VInt 1 ]} (keeps ["torch.optim.Adam"]).

Definition mro_sample_cosine : list string :=
  [Factories.CosineAnnealingLR; "torch.optim.lr_scheduler.LRScheduler"].

Definition sample_cosine : Partial :=
  MkPartial {[ "T_max" := VInt 1; "eta_min" := VInt 0 ]}
    (keeps mro_sample_cosine).

Definition sample_step_lr : Partial :=
  MkPartial {[ "step_size" := VInt 30; "T_max" := VInt 1 ]}
    (keeps ["torch.optim.lr_scheduler.StepLR";
            "torch.optim.lr_scheduler.LRScheduler"]).

Definition sample_loss : Partial := MkPartial ∅ (keeps ["Loss"]).

Definition sample_loader : Partial :=
  MkPartial {[ "batch_size" := VInt 8; "shuffle" := VBool true;
               "drop_last" := VBool true ]}
    (keeps ["torch.utils.data.DataLoader"]).

Definition sample_trainer : Partial := MkPartial ∅ (keeps ["BaseTrainer"]).

Definition sample_tester : Partial := MkPartial ∅ (keeps ["BaseTester"]).

(** [str(PurePosixPath(p))]: the components between the slashes, without
    the empty ones and the [.] ones; two leading slashes, and only two,
    are kept as they are. *)
Fixpoint path_parts (p cur : string) : list string :=
  match p with
  | EmptyString => [cur]
  | String c p' =>
      if Ascii.eqb c "/" then cur :: path_parts p' ""
      else path_parts p' (cur +:+ String c "")
  end.

Definition posix_str (p : string) : string :=
  let parts :=
    List.filter (fun s => negb (String.eqb s "" || String.eqb s "."))
      (path_parts p "") in
  let body := String.concat "/" parts in
  if startswith p "//" && negb (startswith p "///") then "//" +:+ body
  else if startswith p "/" then "/" +:+ body
  else if String.eqb body "" then "." else body.

(** [hydra.utils.to_absolute_path]: a relative path is taken from the
    directory the program was started from, and the result is written
    as [pathlib] writes it. *)
Definition sample_cwd : string := "/home/user/project".

Definition sample_to_absolute_path (p : string) : string :=
  posix_str (if startswith p "/" then p else sample_cwd +:+ "/" +:+ p).

Definition sample_listdir (p : string) : result (list string) :=
  if String.eqb p "/home/user/project/runs/exp1"
  then Ok ["a.ckpt"; "last.ckpt"; "z.ckpt"; "notes.txt"]
  else Raise (FileNotFoundError p).

Definition sample_env : Env :=
  {| REPRODUCIBLE := true;
     USE_WANDB := false;
     PROJECT_NAME := "bells-and-whistles";
     cuda_device_count := 1;
     output_dir := "/home/user/project/runs/exp2";
     path_exists := fun p => String.eqb p "/home/user/project/best.ckpt";
     listdir := sample_listdir;
     to_absolute_path := sample_to_absolute_path;
     to_yaml := fun _ => "run_conf: ...";
     to_cuda_result := fun v => v;
     TransparentDataParallel := keeps ["TransparentDataParallel"];
     method := fun _ _ _ _ _ => Ok tt |}.

Definition sample_run (training : bool) (resume : option string) : RunConfig :=
  {| training_mode := training; seed := 42; epochs := 10; val_every := 1;
     viz_every := 5; viz_train_every := 5; viz_num_samples := 4;
     load_from := resume |}.

Definition sample_cfg (training : bool) (resume : option string) : Test.Cfg :=
  Test.MkCfg (sample_run training resume) sample_loader sample_optimizer
    sample_cosine sample_trainer sample_tester sample_dataset sample_model
    sample_loss.

(** ** Reading a trace *)

(** The calls of the class in role [c]: positional and keyword
    arguments as written at the call. *)
Definition invocation_of (c : Component) (e : Event)
  : option (list Value * kwargs) :=
  match e with
  | EvCall c' _ args kw => if decide (c' = c) then Some (args, kw) else None
  | _ => None
  end.

Definition invocations (c : Component) (t : list Event)
  : list (list Value * kwargs) :=
  omap (invocation_of c) t.

(** The keyword arguments the class in role [c] received, bound ones
    included. *)
Definition reception_of (c : Component) (e : Event)
  : option (list Value * kwargs) :=
  match e with
  | EvCall c' b args kw =>
      if decide (c' = c) then Some (args, effective b kw) else None
  | _ => None
  end.

Definition receptions (c : Component) (t : list Event)
  : list (list Value * kwargs) :=
  omap (reception_of c) t.

(** The calls of the method [name] of a live instance. *)
Definition method_call_of (name : string) (e : Event)
  : option (list Value * kwargs) :=
  match e with
  | EvMethod _ name' args kw =>
      if String.eqb name' name then Some (args, kw) else None
  | _ => None
  end.

Definition method_calls (name : string) (t : list Event)
  : list (list Value * kwargs) :=
  omap (method_call_of name) t.

(** The stages of a launch, and the stage an event belongs to.  The
    construction of the loss, the console, the move to the GPU and the
    experiment tracker belong to none of them. *)
Inductive Stage :=
| Seeder
| DatasetAssembler
| ModelAssembler
| DevicePlacement
| OptimizationAssembler
| LoaderAssembler
| CheckpointResolver
| RunDriverAssembler
| DriverInvoke.

#[global] Instance Stage_eq_dec : EqDecision Stage.
Proof. solve_decision. Defined.

Definition stage_of (e : Event) : option Stage :=
  match e with
  | EvSeedEverything _ => Some Seeder
  | EvCall CDataset _ _ _ => Some DatasetAssembler
  | EvCall CModel _ _ _ => Some ModelAssembler
  | EvDeviceCount | EvCall CDataParallel _ _ _ => Some DevicePlacement
  | EvCall COptimizer _ _ _ | EvCall CScheduler _ _ _ =>
      Some OptimizationAssembler
  | EvCall CGenerator _ _ _ | EvCall CLoader _ _ _ => Some LoaderAssembler
  | EvMethod _ name _ _ =>
      if String.eqb name "manual_seed" then Some LoaderAssembler
      else Some DriverInvoke
  | EvExists _ | EvListdir _ => Some CheckpointResolver
  | EvCall CTrainer _ _ _ | EvCall CTester _ _ _ => Some RunDriverAssembler
  | EvCall CLoss _ _ _ | EvConsole _ | EvToCuda _
  | EvWandbInit _ _ _ | EvWandbWatch _ _ _ => None
  end.

Definition stages (t : list Event) : list Stage := omap stage_of t.

(** The position of a stage in an order. *)
Fixpoint rank (order : list Stage) (s : Stage) : nat :=
  match order with
  | [] => 0
  | s' :: rest => if decide (s' = s) then 0%nat else S (rank rest s)
  end.

(** The stages of [l] execute in the order [order]: whenever a stage
    executes before another, it is not later in [order]. *)
Definition in_order (order : list Stage) (l : list Stage) : Prop :=
  forall i j si sj,
    (i < j)%nat -> l !! i = Some si -> l !! j = Some sj ->
    (rank order si <= rank order sj)%nat.

Definition follows (order : list Stage) (t : list Event) : Prop :=
  in_order order (stages t).

(** Stage [s1] executes after stage [s2] somewhere in the trace. *)
Definition executes_after (s1 s2 : Stage) (t : list Event) : Prop :=
  exists i j, (i < j)%nat /\ stages t !! i = Some s2 /\ stages t !! j = Some s1.

(** The order the specification gives, and the order of the code. *)
Definition spec_order : list Stage :=
  [Seeder; DatasetAssembler; ModelAssembler; DevicePlacement;
   OptimizationAssembler; LoaderAssembler; CheckpointResolver;
   RunDriverAssembler; DriverInvoke].

Definition code_order : list Stage :=
  [Seeder; ModelAssembler; DatasetAssembler; OptimizationAssembler;
   DevicePlacement; LoaderAssembler; CheckpointResolver;
   RunDriverAssembler; DriverInvoke].

(** The events of a trace are in order and their stages lie between
    two positions of the order. *)
Definition staged (order : list Stage) (lo hi : nat) (t : list Event) : Prop :=
  follows order t /\
  Forall (fun s => (lo <= rank order s <= hi)%nat) (stages t).

(** Every run of [m], from any heap, is [staged]. *)
Definition Staged {A} (order : list Stage) (lo hi : nat) (m : M A) : Prop :=
  forall h, staged order lo hi (evs (m h)).

(** ** Python operators on values *)

(** [bool(v)] *)
Definition truthy (v : Value) : bool :=
  match v with
  | VNone => false
  | VBool b => b
  | VInt z => negb (z =? 0)%Z
  | VStr s => negb (String.eqb s "")
  | VRef _ | VParams _ => true
  end.

(** [a and b] on values already computed: the first operand when it is
    falsy, the second otherwise. *)
Definition py_and (a b : Value) : Value := if truthy a then b else a.

Definition int_of_bool (b : bool) : Z := if b then 1 else 0.

(** [a == b]: [bool] compares as [int]; instances compare by identity. *)
Definition py_eq (a b : Value) : bool :=
  match a, b with
  | VNone, VNone => true
  | VBool x, VBool y => Bool.eqb x y
  | VBool x, VInt y | VInt y, VBool x => (int_of_bool x =? y)%Z
  | VInt x, VInt y => (x =? y)%Z
  | VStr x, VStr y => String.eqb x y
  | VRef x, VRef y => (x =? y)%nat
  | VParams x, VParams y => (x =? y)%nat
  | _, _ => false
  end.

(** [str(v)], as an f-string formats it. *)
Definition py_str (v : Value) : string :=
  match v with
  | VNone => "None"
  | VBool true => "True"
  | VBool false => "False"
  | VInt z => pretty z
  | VStr s => s
  | VRef _ | VParams _ => "<object>"
  end.

(** ** dataset/base: the base datasets

    The datasets do not go through the heap of the launch: an instance
    is a record of its attributes, and a method returns its result (or
    an exception) with the list of the effects it had, in order. *)

Module DatasetBase.

Inductive error :=
| IndexError (msg : string)
| ValueError (msg : string)
| ImportError (msg : string)
| OtherError (msg : string).

Inductive outcome (A : Type) :=
| Done (a : A)
| Failed (e : error).
Arguments Done {A} a.
Arguments Failed {A} e.

Inductive Effect :=
| Load (dataset_root tiny split seed : Value)
| Makedirs (path : string)
| ReadImage (sample : Value)
| Resize (size : list Z)
| Normalize
| Augment.

Definition D (A : Type) : Type := outcome A * list Effect.

Definition ret {A} (a : A) : D A := (Done a, []).

Definition raise {A} (e : error) : D A := (Failed e, []).

Definition bind {A B} (m : D A) (f : A -> D B) : D B :=
  match m with
  | (Done a, t1) => match f a with (r, t2) => (r, t1 ++ t2) end
  | (Failed e, t1) => (Failed e, t1)
  end.

(** An external call: its effect, then its outcome. *)
Definition call {A} (e : Effect) (r : outcome A) : D A := (r, [e]).

Declare Scope ds_scope.
Delimit Scope ds_scope with ds.
Notation "x <- c1 ;; c2" := (bind c1 (fun x => c2))
  (at level 100, c1 at next level, right associativity) : ds_scope.
Notation "c1 ;; c2" := (bind c1 (fun _ => c2))
  (at level 100, right associativity) : ds_scope.
Local Open Scope ds_scope.

(** [l[i]] on a list: a negative index counts from the end. *)
Definition getitem_list {A} (l : list A) (i : Z) : outcome A :=
  let n := Z.of_nat (length l) in
  let j := if (i <? 0)%Z then (i + n)%Z else i in
  if (j <? 0)%Z || (n <=? j)%Z then Failed (IndexError "list index out of range")
  else match l !! Z.to_nat j with
       | Some x => Done x
       | None => Failed (IndexError "list index out of range")
       end.

(** What the classes take from outside: the [_load] of the concrete
    subclass (taken to return two lists), the file system, the packages
    installed and the image functions of torchvision and albumentations. *)
Record Collaborators (Tensor : Type) := MkCollaborators {
  _load : Value -> Value -> Value -> Value -> outcome (list Value * list Value);
  makedirs : string -> outcome unit;
  get_original_cwd : string;
  albumentations_installed : bool;
  (** [None]: what was read is not a [Tensor] *)
  read_image : Value -> outcome (option Tensor);
  resize : list Z -> Tensor -> outcome Tensor;
  normalization : Tensor -> outcome Tensor;
  augs : Tensor -> outcome Tensor
}.
Arguments _load {Tensor} c.
Arguments makedirs {Tensor} c.
Arguments get_original_cwd {Tensor} c.
Arguments albumentations_installed {Tensor} c.
Arguments read_image {Tensor} c.
Arguments resize {Tensor} c.
Arguments normalization {Tensor} c.
Arguments augs {Tensor} c.

(** The attributes of a [BaseDataset]. *)
Record BaseDataset := MkBaseDataset {
  _samples : list Value;
  _labels : list Value;
  _augment : Value;
  _normalize : Value;
  _dataset_name : Value;
  _debug : Value;
  _cache_dir : string
}.

(** The attributes [ImageDataset] adds. *)
Record ImageDataset := MkImageDataset {
  base : BaseDataset;
  _img_size : list Z
}.

Definition IMG_SIZE : list Z := [32; 32]%Z.

(** The sizes the constructor of [transforms.Resize] takes: sequences
    of one or two values. *)
Definition resize_accepts (size : list Z) : bool :=
  (length size =? 1)%nat || (length size =? 2)%nat.

Section WithCollaborators.

Context {Tensor : Type} (c : Collaborators Tensor).

(** [BaseDataset.__init__] *)
Definition BaseDataset__init__
    (dataset_root augment normalize split dataset_name seed debug tiny : Value)
  : D BaseDataset :=
  loaded <- call (Load dataset_root tiny split seed)
              (_load c dataset_root tiny split seed) ;;
  let '(samples, labels) := loaded in
  let cache_dir :=
    os_path_join (get_original_cwd c)
      ["data"; py_str dataset_name +:+ "_preprocessed"] in
  call (Makedirs cache_dir) (makedirs c cache_dir) ;;
  ret {| _samples := samples;
         _labels := labels;
         _augment := py_and augment (VBool (py_eq split (VStr "train")));
         _normalize := normalize;
         _dataset_name := dataset_name;
         _debug := debug;
         _cache_dir := cache_dir |}.

(** [BaseDataset.__len__] *)
Definition __len__ (self : BaseDataset) : nat := length (_samples self).

(** [BaseDataset.disable_augs] *)
Definition disable_augs (self : BaseDataset) : BaseDataset :=
  {| _samples := _samples self;
     _labels := _labels self;
     _augment := VBool false;
     _normalize := _normalize self;
     _dataset_name := _dataset_name self;
     _debug := _debug self;
     _cache_dir := _cache_dir self |}.

(** [ImageDataset.__init__]: the arguments of [super().__init__] are
    passed by position, in the order the source writes them. *)
Definition ImageDataset__init__
    (dataset_root dataset_name split seed : Value)
    (img_size : option (list Z)) (augment normalize tiny debug : Value)
  : D ImageDataset :=
  self <- BaseDataset__init__ dataset_root dataset_name augment normalize
            split seed debug tiny ;;
  let img_size := match img_size with None => IMG_SIZE | Some s => s end in
  (* transforms.Resize(self._img_size) *)
  if negb (resize_accepts img_size) then
    raise (ValueError "If size is a sequence, it should have 1 or 2 values")
  else if albumentations_installed c then
    ret {| base := self; _img_size := img_size |}
  else
    raise (ImportError
      "Please install albumentations to use the augmentation pipeline.").

(** [ImageDataset.__getitem__] *)
Definition __getitem__ (self : ImageDataset) (index : Z) : D (Tensor * Value) :=
  sample <- (getitem_list (_samples (base self)) index, []) ;;
  img <- call (ReadImage sample) (read_image c sample) ;;
  match img with
  | None => raise (ValueError "Image not loaded as a Tensor.")
  | Some img =>
      img <- call (Resize (_img_size self)) (resize c (_img_size self) img) ;;
      img <- (if truthy (_normalize (base self))
              then call Normalize (normalization c img) else ret img) ;;
      img <- (if truthy (_augment (base self))
              then call Augment (augs c img) else ret img) ;;
      label <- (getitem_list (_labels (base self)) index, []) ;;
      ret (img, label)
  end.

End WithCollaborators.

End DatasetBase.

(** ** bootstrap/tui/widgets/tracer.py *)

Module Tracer.

(** The state of the widget: the loading indicator, the border, its
    title, and the lines of the [RichLog] it is composed of. *)
Record Tracer := MkTracer {
  loading : bool;
  border : string * string;
  border_title : string;
  rich_log : list string
}.

Definition hang (self : Tracer) (threw : bool) : Tracer :=
  {| loading := loading self;
     border := ("dashed", if threw then "red" else "yellow");
     border_title :=
       "Exception trace: hanged"
       +:+ (if threw then "(exception thrown)" else "(no exception thrown)");
     rich_log := rich_log self |}.

Definition run (self : Tracer) : Tracer :=
  {| loading := true;
     border := ("solid", "green");
     border_title := "Exception trace: running";
     rich_log := rich_log self |}.

Definition write (self : Tracer) (message : string) : Tracer :=
  {| loading := false;
     border := border self;
     border_title := border_title self;
     rich_log := rich_log self ++ [message] |}.

Definition on_mount (self : Tracer) : Tracer := run self.

(** The calls the application makes on the widget. *)
Inductive Call :=
| CallHang (threw : bool)
| CallRun
| CallWrite (message : string).

Definition step (self : Tracer) (call : Call) : Tracer :=
  match call with
  | CallHang threw => hang self threw
  | CallRun => run self
  | CallWrite message => write self message
  end.

Definition steps (self : Tracer) (calls : list Call) : Tracer :=
  fold_left step calls self.

Definition written (call : Call) : option string :=
  match call with CallWrite message => Some message | _ => None end.

Definition is_write (call : Call) : bool :=
  match call with CallWrite _ => true | _ => false end.

Definition is_run (call : Call) : bool :=
  match call with CallRun => true | _ => false end.

Definition is_hang (call : Call) : bool :=
  match call with CallHang _ => true | _ => false end.

End Tracer.

(** The generator keyword of a loader call. *)
Definition carries_generator (g : Value) (call : list Value * kwargs) : Prop :=
  call.2 !! "generator" = Some g.

(** A class that always raises. *)
Definition raises (e : exn) : list Value -> kwargs -> result Obj :=
  fun _ _ => Raise e.

Definition sample_broken_dataset : Partial :=
  MkPartial {[ "img_dim" := VInt 32 ]} (raises (RuntimeError "corrupt archive")).

(** An environment without reproducibility, and the collaborators of a
    small image dataset whose tensors are numbers. *)
Definition sample_env_plain : Env :=
  MkEnv false false "bells-and-whistles" 2 "/home/user/project/runs/exp3"
    (fun _ => false) sample_listdir sample_to_absolute_path
    (fun _ => "run_conf: ...") (fun v => v)
    (keeps ["TransparentDataParallel"]) (fun _ _ _ _ _ => Ok tt).

Definition sample_collaborators : DatasetBase.Collaborators Z :=
  DatasetBase.MkCollaborators Z
    (fun _ _ _ _ =>
       DatasetBase.Done ([VStr "a.png"; VStr "b.png"; VStr "c.png"],
                         [VInt 0; VInt 1; VInt 0]))
    (fun _ => DatasetBase.Done tt)
    "/home/user/project"
    true
    (fun sample => DatasetBase.Done (Some 100%Z))
    (fun _ img => DatasetBase.Done img)
    (fun img => DatasetBase.Done (img + 1)%Z)
    (fun img => DatasetBase.Done (img * 2)%Z).

(** The same collaborators on a machine without [albumentations]. *)
Definition sample_collaborators_bare : DatasetBase.Collaborators Z :=
  DatasetBase.MkCollaborators Z
    (DatasetBase._load sample_collaborators)
    (DatasetBase.makedirs sample_collaborators)
    (DatasetBase.get_original_cwd sample_collaborators)
    false
    (DatasetBase.read_image sample_collaborators)
    (DatasetBase.resize sample_collaborators)
    (DatasetBase.normalization sample_collaborators)
    (DatasetBase.augs sample_collaborators).

Definition sample_image_dataset (normalize augment : bool)
  : DatasetBase.ImageDataset :=
  DatasetBase.MkImageDataset
    (DatasetBase.MkBaseDataset [VStr "a.png"; VStr "b.png"] [VInt 0; VInt 1]
       (VBool augment) (VBool normalize) (VStr "mnist") (VBool false)
       "/home/user/project/data/mnist_preprocessed")
    [32; 32]%Z.

(** ** Events a run never emits *)

(** Every event of every run of [m] satisfies [P]. *)
Definition Emits {A} (P : Event -> Prop) (m : M A) : Prop :=
  forall h, Forall P (evs (m h)).

(** What only a launch in training mode should do: build the loss and
    the trainer, call [train]. *)
Definition training_event (e : Event) : bool :=
  match e with
  | EvCall CLoss _ _ _ | EvCall CTrainer _ _ _ => true
  | EvMethod _ name _ _ => String.eqb name "train"
  | _ => false
  end.

(** What only a launch in testing mode should do: build the tester,
    call [test]. *)
Definition testing_event (e : Event) : bool :=
  match e with
  | EvCall CTester _ _ _ => true
  | EvMethod _ name _ _ => String.eqb name "test"
  | _ => false
  end.

(** The calls to the experiment tracker. *)
Definition tracker_event (e : Event) : bool :=
  match e with
  | EvWandbInit _ _ _ | EvWandbWatch _ _ _ => true
  | _ => false
  end.

(** The calls that seed a source of randomness. *)
Definition seeding_event (e : Event) : bool :=
  match e with
  | EvSeedEverything _ | EvCall CGenerator _ _ _ => true
  | EvMethod _ name _ _ => String.eqb name "manual_seed"
  | _ => false
  end.

Definition is_seed_everything (e : Event) : bool :=
  match e with EvSeedEverything _ => true | _ => false end.

(** The run descriptor with another mode. *)
Definition with_training_mode (b : bool) (run : RunConfig) : RunConfig :=
  MkRunConfig b (seed run) (epochs run) (val_every run) (viz_every run)
    (viz_train_every run) (viz_num_samples run) (load_from run).

(** ** The driver stage of a launch *)

(** The events by which a launch builds a driver or starts it. *)
Definition driver_event (e : Event) : bool :=
  match e with
  | EvCall CTrainer _ _ _ | EvCall CTester _ _ _ => true
  | EvMethod _ name _ _ => String.eqb name "train" || String.eqb name "test"
  | _ => false
  end.

Definition quiet (e : Event) : Prop := driver_event e = false.

(** [m] emits only events that satisfy [P] and returns only values that
    satisfy [Q]. *)
Definition Yields {A} (P : Event -> Prop) (Q : A -> Prop) (m : M A) : Prop :=
  forall h, Forall P (evs (m h)) /\ forall a, res (m h) = Ok a -> Q a.

(** Every run of [m] ends in an outcome that satisfies [S]. *)
Definition Ends {A} (S : Outcome A -> Prop) (m : M A) : Prop :=
  forall h, S (m h).

(** What a launch has done about its driver, the class [p] in role [c]
    whose entry point is [name].  Either the class was never called:
    then the entry point was not called and the launch has raised.  Or
    the class was called once, without positional arguments and with
    keywords [kw] that satisfy [expected]: if it raised, the launch
    raised the same exception and the entry point was not called; if it
    returned an instance, that instance is the last one of the heap,
    the entry point was called once, on it, with keywords that satisfy
    [entry], this call is the last event of the launch and its outcome
    is the outcome of the launch. *)
Definition drives (env : Env) (c : Component) (p : Partial) (name : string)
    (expected entry : kwargs -> Prop) (out : Outcome unit) : Prop :=
  (invocations c (evs out) = [] /\ method_calls name (evs out) = [] /\
   is_ok (res out) = false) \/
  exists kw,
    invocations c (evs out) = [([], kw)] /\ expected kw /\
    match target p [] (effective (bound p) kw) with
    | Ok o =>
        exists h' K,
          heap out = h' ++ [o] /\ entry K /\
          method_calls name (evs out) = [([], K)] /\
          last (evs out) = Some (EvMethod (length h') name [] K) /\
          res out = method env (heap out) (length h') name [] K
    | Raise e => method_calls name (evs out) = [] /\ res out = Raise e
    end.

(** * Properties *)

Ltac run_py :=
  cbv beta iota zeta delta
    [bind ret raise emit lift invoke alloc deref setattr console
     res heap evs app exists_ os_listdir device_count to_cuda_ call_method
     new_generator manual_seed getattr_conf].

Ltac case_call p :=
  match goal with
  | |- context [target p ?args ?kw] =>
      let E := fresh "Hcall" in
      destruct (target p args kw) eqn:E
  end.

Lemma lookup_alloc (h : Heap) (o : Obj) : heap_add h o !! length h = Some o.
Proof. unfold heap_add. by rewrite list_lookup_middle. Qed.

Lemma insert_alloc (h : Heap) (o o' : Obj) :
  <[length h := o']> (heap_add h o) = heap_add h o'.
Proof.
  unfold heap_add. replace (length h) with (length h + 0)%nat by lia.
  by rewrite insert_app_r.
Qed.

Lemma length_heap_add (h : Heap) (o : Obj) :
  length (heap_add h o) = S (length h).
Proof. unfold heap_add. rewrite length_app. simpl. lia. Qed.

Lemma heap_add_twice (h : Heap) (o1 o2 : Obj) :
  heap_add (heap_add h o1) o2 = h ++ [o1; o2].
Proof. unfold heap_add. by rewrite <- app_assoc. Qed.

(** C2: in training mode [make_datasets] calls the dataset's deferred
    constructor with [split="train"] and the seed, then with
    [split="val"] and the seed, and returns the two instances the class
    built, the first as train and the second as val, with a null test;
    in testing mode it calls it once, with [split="test"],
    [augment=False] and the seed, and returns the instance the class
    built as test, with train and val null.  No other combination is
    ever returned, and the call returns whenever the class does. *)
Theorem make_datasets_contract (tm : bool) (sd : Z) (p : Partial) (h : Heap) :
  let out := Factories.make_datasets tm sd p h in
  let train_kw : kwargs := {[ "split" := VStr "train"; "seed" := VInt sd ]} in
  let val_kw : kwargs := {[ "split" := VStr "val"; "seed" := VInt sd ]} in
  let test_kw : kwargs :=
    {[ "split" := VStr "test"; "augment" := VBool false; "seed" := VInt sd ]} in
  let built kw := target p [] (effective (bound p) kw) in
  (forall tr va te, res out = Ok (tr, va, te) ->
     if tm then
       exists ot ov,
         built train_kw = Ok ot /\ built val_kw = Ok ov /\
         tr = Some (length h) /\ va = Some (S (length h)) /\ te = None /\
         heap out = h ++ [ot; ov] /\
         invocations CDataset (evs out) = [([], train_kw); ([], val_kw)]
     else
       exists oe,
         built test_kw = Ok oe /\
         tr = None /\ va = None /\ te = Some (length h) /\
         heap out = h ++ [oe] /\
         invocations CDataset (evs out) = [([], test_kw)]) /\
  (if tm then
     forall ot ov, built train_kw = Ok ot -> built val_kw = Ok ov ->
       res out = Ok (Some (length h), Some (S (length h)), None)
   else
     forall oe, built test_kw = Ok oe ->
       res out = Ok (None, None, Some (length h))).
Proof.
  unfold Factories.make_datasets. cbv zeta. split.
  - intros tr va te. destruct tm; run_py.
    + do 2 (case_call p; run_py; try discriminate).
      rewrite length_heap_add, heap_add_twice.
      intros [= <- <- <-]. by eexists _, _.
    + case_call p; run_py; try discriminate.
      intros [= <- <- <-]. by eexists.
  - destruct tm; run_py.
    + intros ot ov ->. run_py. intros ->. run_py.
      by rewrite length_heap_add.
    + intros oe ->. reflexivity.
Qed.

Lemma make_datasets_contract_witness :
  res (Factories.make_datasets true 42 sample_dataset []) =
    Ok (Some 0%nat, Some 1%nat, None) /\
  res (Factories.make_datasets false 42 sample_dataset []) =
    Ok (None, None, Some 0%nat).
Proof.
  split.
  - exact (proj2 (make_datasets_contract true 42 sample_dataset []) _ _
             eq_refl eq_refl).
  - exact (proj2 (make_datasets_contract false 42 sample_dataset []) _
             eq_refl).
Defined.

Lemma just_Ok (p : Partial) (conf : kwargs) :
  just p = Ok conf -> conf = bound p.
Proof.
  unfold just.
  destruct (forallb _ _); [by intros [= <-] | discriminate].
Qed.

(** C3: [make_model] never calls the dataset's deferred constructor,
    in any run.  It takes the configuration of the dataset from [just],
    whose fields are the keywords bound in the deferred constructor,
    reads [img_dim] in it, and calls the model's deferred constructor
    once, with [encoder_input_dim] equal to the square of that
    dimension, for every integer dimension; the model class receives
    that value, and the call returns the instance the class builds. *)
Theorem make_model_contract (model_partial dataset : Partial) (h : Heap) :
  let out := Factories.make_model model_partial dataset h in
  invocations CDataset (evs out) = [] /\
  forall conf d,
    just dataset = Ok conf ->
    conf !! "img_dim" = Some (VInt d) ->
    conf = bound dataset /\
    invocations CModel (evs out) =
      [([], {[ "encoder_input_dim" := VInt (d * d) ]})] /\
    (exists kw, receptions CModel (evs out) = [([], kw)] /\
                kw !! "encoder_input_dim" = Some (VInt (d * d))) /\
    (forall o,
       target model_partial []
         (effective (bound model_partial)
            {[ "encoder_input_dim" := VInt (d * d) ]}) = Ok o ->
       res out = Ok (length h) /\ heap out = h ++ [o]).
Proof.
  cbv zeta. unfold Factories.make_model. split.
  - destruct (just dataset) as [conf|e]; run_py; [| reflexivity].
    destruct (conf !! "img_dim") as [v|]; run_py; [| reflexivity].
    destruct (pow2 v); run_py; [| reflexivity].
    case_call model_partial; reflexivity.
  - intros conf d Hjust Hdim. split; [by apply just_Ok |].
    rewrite Hjust. run_py. rewrite Hdim.
    unfold pow2. rewrite Z.pow_2_r. run_py.
    assert (Hrec : exists kw,
      [([] : list Value,
        effective (bound model_partial)
          {[ "encoder_input_dim" := VInt (d * d) ]})] = [([], kw)] /\
      kw !! "encoder_input_dim" = Some (VInt (d * d))).
    { eexists. split; [reflexivity |]. unfold effective.
      apply lookup_union_Some_l, lookup_singleton_eq. }
    case_call model_partial; run_py.
    + split; [reflexivity | split; [exact Hrec |]].
      intros o' [= <-]. split; reflexivity.
    + split; [reflexivity | split; [exact Hrec |]].
      intros o'. discriminate.
Qed.

Lemma make_model_contract_witness :
  let out := Factories.make_model sample_model sample_dataset [] in
  invocations CDataset (evs out) = [] /\
  invocations CModel (evs out) =
    [([], {[ "encoder_input_dim" := VInt (32 * 32) ]})] /\
  res out = Ok 0%nat /\
  heap out =
    [] ++ [MkObj ["Model"]
             (effective (bound sample_model)
                {[ "encoder_input_dim" := VInt (32 * 32) ]})].
Proof.
  destruct (make_model_contract sample_model sample_dataset [])
    as (Hds & Hrun).
  destruct (Hrun (bound sample_dataset) 32 eq_refl eq_refl)
    as (_ & Hcall & _ & Hret).
  split; [exact Hds |]. split; [exact Hcall |].
  exact (Hret _ eq_refl).
Defined.

(** C7: [make_scheduler] calls the scheduler's deferred constructor once,
    with the live optimizer, and returns the instance it built; if the
    instance is a [CosineAnnealingLR] its [T_max] is overwritten with
    [epochs] and nothing else changes, and if it is not, the instance
    is exactly what the class built.  The objects already in the heap
    are untouched. *)
Theorem make_scheduler_contract (p : Partial) (optimizer : loc) (ep : Z)
    (h : Heap) (o : Obj) :
  target p [VRef optimizer] (effective (bound p) ∅) = Ok o ->
  let out := Factories.make_scheduler p optimizer ep h in
  invocations CScheduler (evs out) = [([VRef optimizer], ∅)] /\
  res out = Ok (length h) /\
  (exists s, heap out = h ++ [s] /\ mro s = mro o /\
     (isinstance o Factories.CosineAnnealingLR = true ->
        attrs s !! "T_max" = Some (VInt ep) /\
        forall k, k <> "T_max" -> attrs s !! k = attrs o !! k) /\
     (isinstance o Factories.CosineAnnealingLR = false -> s = o)).
Proof.
  intros Hcall. unfold Factories.make_scheduler. run_py. rewrite Hcall.
  run_py. rewrite lookup_alloc.
  destruct (isinstance o Factories.CosineAnnealingLR) eqn:Hcos; run_py.
  - rewrite lookup_alloc, insert_alloc.
    split; [reflexivity | split; [reflexivity |]].
    exists (set_attr o "T_max" (VInt ep)).
    split; [reflexivity | split; [reflexivity | split]].
    + intros _. split; [apply lookup_insert_eq |].
      intros k Hk. simpl. by rewrite lookup_insert_ne.
    + discriminate.
  - split; [reflexivity | split; [reflexivity |]].
    exists o. split; [reflexivity | split; [reflexivity | split]].
    + discriminate.
    + reflexivity.
Qed.

Lemma make_scheduler_contract_witness :
  target sample_cosine [VRef 0%nat] (effective (bound sample_cosine) ∅) =
    Ok (MkObj (mro_sample_cosine) (effective (bound sample_cosine) ∅)) /\
  exists s, heap (Factories.make_scheduler sample_cosine 0%nat 10 []) = [s] /\
            attrs s !! "T_max" = Some (VInt 10) /\
            attrs s !! "eta_min" = Some (VInt 0).
Proof.
  split; [reflexivity |].
  destruct (make_scheduler_contract sample_cosine 0%nat 10 []
              (MkObj mro_sample_cosine (effective (bound sample_cosine) ∅))
              eq_refl) as (_ & _ & s & Hheap & _ & Hcos & _).
  exists s. split; [exact Hheap |].
  destruct (Hcos eq_refl) as [HT Hframe].
  split; [exact HT |]. by rewrite Hframe.
Defined.

(** A scheduler of another class keeps the [T_max] it was built with. *)
Example make_scheduler_step_lr :
  exists s, heap (Factories.make_scheduler sample_step_lr 0%nat 10 []) = [s] /\
            attrs s !! "T_max" = Some (VInt 1).
Proof. eexists. split; reflexivity. Qed.

(** C9: when training mode is requested and the train or the val dataset
    is null, or testing mode is requested and the test dataset is null,
    [make_dataloaders] raises [ValueError] and no loader has been
    constructed. *)
Theorem make_dataloaders_precondition (env : Env) (p : Partial)
    (train val test : option loc) (tm : bool) (sd : Z) (h : Heap) :
  (tm = true /\ (train = None \/ val = None)) \/ (tm = false /\ test = None) ->
  let out := Factories.make_dataloaders env p train val test tm sd h in
  (exists msg, res out = Raise (ValueError msg)) /\
  invocations CLoader (evs out) = [].
Proof.
  intros Hmissing. unfold Factories.make_dataloaders.
  destruct Hmissing as [[-> Hnull] | [-> ->]].
  - destruct (REPRODUCIBLE env); run_py;
      try (destruct (seed_fits sd); run_py);
      (destruct Hnull as [-> | ->]; [| destruct train]);
      (split; [eexists; reflexivity | reflexivity]).
  - destruct (REPRODUCIBLE env); run_py;
      try (destruct (seed_fits sd); run_py);
      (split; [eexists; reflexivity | reflexivity]).
Qed.

Lemma make_dataloaders_precondition_witness :
  let out := Factories.make_dataloaders sample_env sample_loader
               (Some 0%nat) None None true 42 [] in
  (exists msg, res out = Raise (ValueError msg)) /\
  invocations CLoader (evs out) = [].
Proof.
  apply (make_dataloaders_precondition sample_env sample_loader
           (Some 0%nat) None None true 42 []).
  left. split; [reflexivity | right; reflexivity].
Defined.

Lemma effective_forced (b : kwargs) (g : Value) :
  let kw := effective b {[ "generator" := g; "shuffle" := VBool false;
                           "drop_last" := VBool false ]} in
  kw !! "shuffle" = Some (VBool false) /\
  kw !! "drop_last" = Some (VBool false).
Proof.
  unfold effective.
  split; apply lookup_union_Some_l; by simplify_map_eq.
Qed.

Lemma effective_default (b : kwargs) (g : Value) :
  let kw := effective b {[ "generator" := g ]} in
  kw !! "shuffle" = b !! "shuffle" /\ kw !! "drop_last" = b !! "drop_last".
Proof.
  unfold effective.
  split; apply lookup_union_r; by simplify_map_eq.
Qed.

(** C8: every loader is given the generator of the call ([None] without
    [REPRODUCIBLE]).  In training mode [make_dataloaders] builds the
    train loader first, on the train dataset, and the val loader
    second, on the val dataset and only if the first call returned; it
    returns the first instance as the train loader and the second as
    the val loader.  The loader class receives for the val loader
    [shuffle=False] and [drop_last=False] whatever the deferred
    constructor had bound, and for the train loader the [shuffle] and
    [drop_last] bound in the deferred constructor, if any.  In testing
    mode it builds the test loader alone, on the test dataset, with
    [shuffle=False] and [drop_last=False], and returns it as the test
    loader.  With [REPRODUCIBLE], the loaders are built only if
    the generator took the seed. *)
Theorem make_dataloaders_policy (env : Env) (p : Partial)
    (train val test : option loc) (tm : bool) (sd : Z) (h : Heap) :
  let out := Factories.make_dataloaders env p train val test tm sd h in
  let g := if REPRODUCIBLE env then VRef (length h) else VNone in
  let h0 :=
    if REPRODUCIBLE env then heap_add h (MkObj ["torch.Generator"] ∅)
    else h in
  let seeded := REPRODUCIBLE env = true -> seed_fits sd = true in
  let kt := effective (bound p) {[ "generator" := g ]} in
  let kv :=
    effective (bound p)
      {[ "generator" := g; "shuffle" := VBool false;
         "drop_last" := VBool false ]} in
  (kt !! "shuffle" = bound p !! "shuffle" /\
   kt !! "drop_last" = bound p !! "drop_last" /\
   kv !! "shuffle" = Some (VBool false) /\
   kv !! "drop_last" = Some (VBool false)) /\
  (forall tr va, tm = true -> train = Some tr -> val = Some va ->
     receptions CLoader (evs out) `prefix_of`
       [([VRef tr], kt); ([VRef va], kv)] /\
     (seeded ->
        match target p [VRef tr] kt with
        | Ok ot =>
            receptions CLoader (evs out) = [([VRef tr], kt); ([VRef va], kv)] /\
            match target p [VRef va] kv with
            | Ok ov =>
                res out = Ok (Some (length h0), Some (S (length h0)), None) /\
                heap out = h0 ++ [ot; ov]
            | Raise e => res out = Raise e
            end
        | Raise e =>
            receptions CLoader (evs out) = [([VRef tr], kt)] /\
            res out = Raise e
        end)) /\
  (forall te, tm = false -> test = Some te ->
     receptions CLoader (evs out) `prefix_of` [([VRef te], kv)] /\
     (seeded ->
        receptions CLoader (evs out) = [([VRef te], kv)] /\
        match target p [VRef te] kv with
        | Ok oe =>
            res out = Ok (None, None, Some (length h0)) /\
            heap out = h0 ++ [oe]
        | Raise e => res out = Raise e
        end)).
Proof.
  cbv zeta. split; [| split].
  - destruct (effective_default (bound p)
                (if REPRODUCIBLE env then VRef (length h) else VNone))
      as [Hs Hd].
    destruct (effective_forced (bound p)
                (if REPRODUCIBLE env then VRef (length h) else VNone))
      as [Hs' Hd'].
    by repeat split.
  - intros tr va -> -> ->. unfold Factories.make_dataloaders.
    destruct (REPRODUCIBLE env); run_py; cbv [of_optional].
    + destruct (seed_fits sd); run_py.
      * split.
        -- repeat (case_call p; run_py);
             first [reflexivity | eexists [_]; reflexivity].
        -- intros _. repeat (case_call p; run_py);
             rewrite ?length_heap_add, ?heap_add_twice; by repeat split.
      * split; [eexists; reflexivity | intros Hseed; by specialize (Hseed eq_refl)].
    + split.
      * repeat (case_call p; run_py);
             first [reflexivity | eexists [_]; reflexivity].
      * intros _. repeat (case_call p; run_py);
          rewrite ?length_heap_add, ?heap_add_twice; by repeat split.
  - intros te -> ->. unfold Factories.make_dataloaders.
    destruct (REPRODUCIBLE env); run_py; cbv [of_optional].
    + destruct (seed_fits sd); run_py.
      * split; [case_call p; run_py; reflexivity |].
        intros _. case_call p; run_py; by repeat split.
      * split; [eexists; reflexivity | intros Hseed; by specialize (Hseed eq_refl)].
    + split; [case_call p; run_py; reflexivity |].
      intros _. case_call p; run_py; by repeat split.
Qed.

Lemma make_dataloaders_policy_witness :
  let out := Factories.make_dataloaders sample_env sample_loader
               (Some 0%nat) (Some 1%nat) None true 42 [] in
  exists kt kv,
    receptions CLoader (evs out) = [([VRef 0%nat], kt); ([VRef 1%nat], kv)] /\
    kt !! "shuffle" = Some (VBool true) /\
    kv !! "shuffle" = Some (VBool false) /\
    kv !! "drop_last" = Some (VBool false) /\
    res out = Ok (Some 1%nat, Some 2%nat, None).
Proof.
  destruct (make_dataloaders_policy sample_env sample_loader
              (Some 0%nat) (Some 1%nat) None true 42 [])
    as ((Hs & _ & Hs' & Hd') & Htrain & _).
  destruct (Htrain 0%nat 1%nat eq_refl eq_refl eq_refl) as [_ Hrun].
  specialize (Hrun (fun _ => eq_refl)).
  destruct Hrun as (Hcalls & Hres & _).
  eexists _, _. split; [exact Hcalls |].
  split; [by rewrite Hs |]. split; [exact Hs' |]. split; [exact Hd' |].
  exact Hres.
Defined.

(** ** The order of [sorted] *)

Lemma ascii_compare_trans (a b c : ascii) :
  Ascii.compare a b <> Gt -> Ascii.compare b c <> Gt ->
  Ascii.compare a c <> Gt /\
  (Ascii.compare a c = Eq -> Ascii.compare a b = Eq /\ Ascii.compare b c = Eq).
Proof.
  unfold Ascii.compare.
  destruct (N.compare_spec (N_of_ascii a) (N_of_ascii b)) as [Hab|Hab|Hab];
  destruct (N.compare_spec (N_of_ascii b) (N_of_ascii c)) as [Hbc|Hbc|Hbc];
  destruct (N.compare_spec (N_of_ascii a) (N_of_ascii c)) as [Hac|Hac|Hac];
  intros H1 H2; (split; [| intros H3]); try congruence; try lia; try (split; congruence).
Qed.

Lemma str_le_String (a b : ascii) (s1 s2 : string) :
  str_le (String a s1) (String b s2) <->
  Ascii.compare a b = Lt \/ (Ascii.compare a b = Eq /\ str_le s1 s2).
Proof.
  unfold str_le, String.leb. simpl.
  destruct (Ascii.compare a b); simpl; intuition (try discriminate; auto).
Qed.

#[global] Instance str_le_refl : Reflexive str_le.
Proof.
  intros s. unfold str_le, String.leb.
  pose proof (String.compare_antisym s s) as H.
  destruct (String.compare s s); simpl in *; try discriminate; exact I.
Qed.

#[global] Instance str_le_trans : Transitive str_le.
Proof.
  intros s1. induction s1 as [|a s1 IH]; intros [|b s2] [|c s3]; try done.
  rewrite !str_le_String. intros H12 H23.
  assert (Hab : Ascii.compare a b <> Gt) by (destruct H12 as [->| [-> _]]; discriminate).
  assert (Hbc : Ascii.compare b c <> Gt) by (destruct H23 as [->| [-> _]]; discriminate).
  destruct (ascii_compare_trans a b c Hab Hbc) as [Hac Heq].
  destruct (Ascii.compare a c) eqn:E; [right | left | ]; try done.
  destruct (Heq eq_refl) as [E1 E2]. split; [done|].
  destruct H12 as [?|[_ ?]]; [congruence|]. destruct H23 as [?|[_ ?]]; [congruence|].
  eauto.
Qed.

#[global] Instance str_le_total : Total str_le.
Proof.
  intros s1 s2. unfold str_le.
  destruct (String.leb_total s1 s2) as [H|H]; rewrite H; [left | right]; exact I.
Qed.

Lemma last_sorted_max (l : list string) (f : string) :
  last (sorted l) = Some f -> f ∈ l /\ forall g, g ∈ l -> str_le g f.
Proof.
  unfold sorted. intros Hlast.
  pose proof (StronglySorted_merge_sort str_le l) as Hs.
  pose proof (merge_sort_Permutation str_le l) as Hp.
  apply last_Some in Hlast as [l' Hl'].
  rewrite Hl' in Hs, Hp. split.
  - rewrite <- Hp. set_solver.
  - intros g Hg. rewrite <- Hp in Hg.
    apply elem_of_app in Hg as [Hg | Hg].
    + clear -Hs Hg. induction l' as [|x l' IH]; [set_solver|].
      simpl in Hs. apply StronglySorted_inv in Hs as [Hs Hall].
      apply elem_of_cons in Hg as [-> | Hg]; [| by apply IH].
      rewrite Forall_forall in Hall. apply Hall. set_solver.
    + apply list_elem_of_singleton in Hg as ->. reflexivity.
Qed.

Lemma sorted_nil_iff (l : list string) : sorted l = [] <-> l = [].
Proof.
  unfold sorted. split; intros H.
  - apply Permutation_nil. rewrite <- H. apply merge_sort_Permutation.
  - subst. reflexivity.
Qed.

(** ** Checkpoint resolution *)

Lemma elem_of_filter_eligible (tm : bool) (files : list string) (f : string) :
  f ∈ List.filter (Monolith.eligible tm) files <->
  f ∈ files /\ endswith f ".ckpt" = true /\
  (tm = false -> startswith f "last" = false).
Proof.
  rewrite !list_elem_of_In, filter_In. unfold Monolith.eligible.
  destruct tm; simpl.
  - rewrite andb_true_r. intuition discriminate.
  - rewrite andb_true_iff, negb_true_iff. intuition.
Qed.

(** C4: for a [load_from] that does not end with [.ckpt], with [files]
    the listing of the directory of that run: the candidates are the
    files that end with [.ckpt] and, outside training mode, do not
    start with [last]; they are sorted in ascending order; without
    candidates the resolution raises [ValueError]; otherwise it returns
    the absolute path, inside the directory of the run, of the last
    name of the sorted list, which is a candidate and is greater than
    or equal to every candidate.  With the listing
    [a.ckpt, last.ckpt, z.ckpt] in testing mode that name is [z.ckpt]. *)
Theorem resolve_checkpoint_run_identifier (env : Env) (lf : string) (tm : bool)
    (files : list string) (h : Heap) :
  endswith lf ".ckpt" = false ->
  listdir env (to_absolute_path env ("runs/" +:+ lf +:+ "/")) = Ok files ->
  let candidates := List.filter (Monolith.eligible tm) files in
  let out := Monolith.resolve_checkpoint env (Some lf) tm h in
  (forall f, f ∈ candidates <->
     f ∈ files /\ endswith f ".ckpt" = true /\
     (tm = false -> startswith f "last" = false)) /\
  StronglySorted str_le (sorted candidates) /\
  sorted candidates ≡ₚ candidates /\
  (candidates = [] -> exists msg, res out = Raise (ValueError msg)) /\
  (candidates <> [] ->
     exists f, last (sorted candidates) = Some f /\
       f ∈ candidates /\
       (forall g, g ∈ candidates -> str_le g f) /\
       res out =
         Ok (Some (to_absolute_path env (os_path_join "runs" [lf; f])))) /\
  (files = ["a.ckpt"; "last.ckpt"; "z.ckpt"] -> tm = false ->
     res out =
       Ok (Some (to_absolute_path env (os_path_join "runs" [lf; "z.ckpt"])))).
Proof.
  intros Hsuffix Hlist candidates out.
  assert (Hout : out =
    MkOutcome
      (match sorted candidates with
       | [] => Raise (ValueError ("No model found in runs/" +:+ lf +:+ "/"))
       | _ :: _ =>
           match last (sorted candidates) with
           | Some f =>
               Ok (Some (to_absolute_path env (os_path_join "runs" [lf; f])))
           | None => Raise (IndexError "list index out of range")
           end
       end) h
      [EvListdir (to_absolute_path env ("runs/" +:+ lf +:+ "/"))]).
  { subst out candidates. unfold Monolith.resolve_checkpoint.
    rewrite Hsuffix. run_py. rewrite Hlist. run_py.
    destruct (sorted (List.filter (Monolith.eligible tm) files)) as [|x l];
      [reflexivity |].
    change (length (x :: l) <? 1)%nat with false. cbv iota.
    destruct (last (x :: l)); reflexivity. }
  split; [apply elem_of_filter_eligible |].
  split; [apply StronglySorted_merge_sort; apply _ |].
  split; [apply merge_sort_Permutation |].
  split; [| split].
  - intros Hnone. rewrite Hout, Hnone. simpl. eauto.
  - intros Hsome. rewrite Hout. simpl.
    destruct (sorted candidates) as [|x l] eqn:Hsorted.
    { destruct (Hsome (proj1 (sorted_nil_iff _) Hsorted)). }
    destruct (last (x :: l)) as [f|] eqn:Hlast.
    2: { apply last_None in Hlast. discriminate. }
    rewrite <- Hsorted in Hlast.
    destruct (last_sorted_max candidates f Hlast) as [Hin Hmax].
    exists f. rewrite Hsorted in Hlast. by repeat split.
  - intros Hfiles ->. rewrite Hout. subst candidates. rewrite Hfiles.
    reflexivity.
Qed.

Lemma resolve_checkpoint_run_identifier_witness :
  res (Monolith.resolve_checkpoint sample_env (Some "exp1") false []) =
    Ok (Some "/home/user/project/runs/exp1/z.ckpt") /\
  res (Monolith.resolve_checkpoint sample_env (Some "exp1") true []) =
    Ok (Some "/home/user/project/runs/exp1/z.ckpt").
Proof.
  split.
  - destruct (resolve_checkpoint_run_identifier sample_env "exp1" false
                ["a.ckpt"; "last.ckpt"; "z.ckpt"; "notes.txt"] []
                eq_refl eq_refl) as (_ & _ & _ & _ & Hlast & _).
    destruct Hlast as (f & Hf & _ & _ & ->); [discriminate |].
    vm_compute in Hf. by injection Hf as <-.
  - destruct (resolve_checkpoint_run_identifier sample_env "exp1" true
                ["a.ckpt"; "last.ckpt"; "z.ckpt"; "notes.txt"] []
                eq_refl eq_refl) as (_ & _ & _ & _ & Hlast & _).
    destruct Hlast as (f & Hf & _ & _ & ->); [discriminate |].
    vm_compute in Hf. by injection Hf as <-.
Defined.

(** C5, as stated, fails: a direct path is not returned unchanged.  The
    relative path [best.ckpt], whose file exists in the directory the
    program was started from, resolves to its absolute form; and the
    absolute path [/home/user/project/./best.ckpt] comes back without
    its [.] component. *)
Lemma resolve_checkpoint_direct_not_unchanged :
  endswith "best.ckpt" ".ckpt" = true /\
  res (Monolith.resolve_checkpoint sample_env (Some "best.ckpt") false []) =
    Ok (Some "/home/user/project/best.ckpt") /\
  res (Monolith.resolve_checkpoint sample_env (Some "best.ckpt") false []) <>
    Ok (Some "best.ckpt") /\
  res (Monolith.resolve_checkpoint sample_env
         (Some "/home/user/project/./best.ckpt") false []) =
    Ok (Some "/home/user/project/best.ckpt").
Proof.
  split; [reflexivity | split; [reflexivity | split; [discriminate |]]].
  reflexivity.
Qed.

(** C5, amended: for a [load_from] that ends with [.ckpt] the resolution
    converts the path with [to_absolute_path], asks the file system
    once whether the converted path exists, returns the converted path
    when it does and raises [ValueError] when it does not; the path
    comes back unchanged exactly when the file exists and
    [to_absolute_path] leaves the path as it is.  A null [load_from]
    resolves to null, without touching the file system. *)
Theorem resolve_checkpoint_direct (env : Env) (lf : string) (tm : bool)
    (h : Heap) :
  endswith lf ".ckpt" = true ->
  let path := to_absolute_path env lf in
  Monolith.resolve_checkpoint env (Some lf) tm h =
    MkOutcome
      (if path_exists env path then Ok (Some path)
       else Raise (ValueError ("File " +:+ path +:+ " does not exist!")))
      h [EvExists path] /\
  (res (Monolith.resolve_checkpoint env (Some lf) tm h) = Ok (Some lf) <->
   path = lf /\ path_exists env lf = true) /\
  Monolith.resolve_checkpoint env None tm h = MkOutcome (Ok None) h [].
Proof.
  intros Hsuffix path.
  assert (Hrun : Monolith.resolve_checkpoint env (Some lf) tm h =
    MkOutcome
      (if path_exists env path then Ok (Some path)
       else Raise (ValueError ("File " +:+ path +:+ " does not exist!")))
      h [EvExists path]).
  { unfold Monolith.resolve_checkpoint. rewrite Hsuffix. run_py.
    fold path. destruct (path_exists env path); reflexivity. }
  split; [exact Hrun |]. split; [| reflexivity].
  rewrite Hrun. simpl. split.
  - destruct (path_exists env path) eqn:Hexists; [| discriminate].
    intros [= Hsame]. split; [exact Hsame |]. by rewrite <- Hsame.
  - intros [Hsame Hexists]. by rewrite Hsame, Hexists.
Qed.

Lemma resolve_checkpoint_direct_witness :
  Monolith.resolve_checkpoint sample_env (Some "/home/user/project/best.ckpt")
      false [] =
    MkOutcome (Ok (Some "/home/user/project/best.ckpt")) []
      [EvExists "/home/user/project/best.ckpt"] /\
  Monolith.resolve_checkpoint sample_env (Some "missing.ckpt") true [] =
    MkOutcome
      (Raise (ValueError
                "File /home/user/project/missing.ckpt does not exist!")) []
      [EvExists "/home/user/project/missing.ckpt"].
Proof.
  split.
  - exact (proj1 (resolve_checkpoint_direct sample_env
                    "/home/user/project/best.ckpt" false [] eq_refl)).
  - exact (proj1 (resolve_checkpoint_direct sample_env "missing.ckpt" true []
                    eq_refl)).
Defined.

(** ** The order of the stages *)

Section Staging.

Variable order : list Stage.

Lemma staged_nil (lo hi : nat) : staged order lo hi [].
Proof.
  split; [| constructor].
  intros i j si sj _ Hi. unfold stages in Hi. simpl in Hi.
  by rewrite lookup_nil in Hi.
Qed.

Lemma staged_weaken (lo hi lo' hi' : nat) (t : list Event) :
  staged order lo hi t -> (lo' <= lo)%nat -> (hi <= hi')%nat -> staged order lo' hi' t.
Proof.
  intros [Hord Hall] Hlo Hhi. split; [exact Hord |].
  eapply Forall_impl; [exact Hall |]. simpl. intros s Hs. lia.
Qed.

Lemma staged_app (lo mid hi : nat) (t1 t2 : list Event) :
  (lo <= mid)%nat -> (mid <= hi)%nat ->
  staged order lo mid t1 -> staged order mid hi t2 -> staged order lo hi (t1 ++ t2).
Proof.
  intros Hlo Hhi [Hord1 Hall1] [Hord2 Hall2].
  unfold staged, follows, stages in *.
  rewrite omap_app. split.
  - intros i j si sj Hij Hi Hj.
    rewrite Forall_lookup in Hall1. rewrite Forall_lookup in Hall2.
    destruct (decide (j < length (omap stage_of t1))%nat) as [Hj1 | Hj1].
    + rewrite lookup_app_l in Hi by lia. rewrite lookup_app_l in Hj by lia.
      eauto.
    + rewrite lookup_app_r in Hj by lia.
      destruct (decide (i < length (omap stage_of t1))%nat) as [Hi1 | Hi1].
      * rewrite lookup_app_l in Hi by lia.
        specialize (Hall1 _ _ Hi). specialize (Hall2 _ _ Hj).
        simpl in Hall1, Hall2. lia.
      * rewrite lookup_app_r in Hi by lia.
        eapply Hord2; [| exact Hi | exact Hj]. lia.
  - apply Forall_app. split.
    + eapply Forall_impl; [exact Hall1 |]. simpl. intros s Hs. lia.
    + eapply Forall_impl; [exact Hall2 |]. simpl. intros s Hs. lia.
Qed.

Lemma staged_singleton (lo hi : nat) (e : Event) :
  match stage_of e with
  | Some s => (lo <= rank order s <= hi)%nat
  | None => True
  end ->
  staged order lo hi [e].
Proof.
  intros He. unfold staged, follows, stages. simpl.
  destruct (stage_of e) as [s|]; [| apply (staged_nil lo hi)].
  split.
  - intros i j si sj Hij Hi Hj.
    destruct j as [|j]; [lia |]. simpl in Hj. by rewrite lookup_nil in Hj.
  - constructor; [exact He | constructor].
Qed.

(** *** The rules of the monad *)

Lemma Staged_ret {A} (lo hi : nat) (a : A) : Staged order lo hi (ret a).
Proof. intros h. apply staged_nil. Qed.

Lemma Staged_raise {A} (lo hi : nat) (e : exn) : Staged order lo hi (@raise A e).
Proof. intros h. apply staged_nil. Qed.

Lemma Staged_lift {A} (lo hi : nat) (r : result A) : Staged order lo hi (lift r).
Proof. intros h. destruct r; apply staged_nil. Qed.

Lemma Staged_alloc (lo hi : nat) (o : Obj) : Staged order lo hi (alloc o).
Proof. intros h. apply staged_nil. Qed.

Lemma Staged_deref (lo hi : nat) (l : loc) : Staged order lo hi (deref l).
Proof. intros h. unfold deref. destruct (h !! l); apply staged_nil. Qed.

Lemma Staged_setattr (lo hi : nat) (l : loc) (name : string) (v : Value) :
  Staged order lo hi (setattr l name v).
Proof. intros h. unfold setattr. destruct (h !! l); apply staged_nil. Qed.

Lemma Staged_emit (lo hi : nat) (e : Event) :
  match stage_of e with
  | Some s => (lo <= rank order s <= hi)%nat
  | None => True
  end ->
  Staged order lo hi (emit e).
Proof. intros He h. by apply staged_singleton. Qed.

Lemma Staged_bind {A B} (lo mid hi : nat) (m : M A) (f : A -> M B) :
  (lo <= mid)%nat -> (mid <= hi)%nat ->
  Staged order lo mid m -> (forall a, Staged order mid hi (f a)) ->
  Staged order lo hi (bind m f).
Proof.
  intros Hlo Hhi Hm Hf h. unfold bind.
  specialize (Hm h). destruct (m h) as [[a|e] h1 t1]; simpl in Hm.
  - specialize (Hf a h1). destruct (f a h1) as [r h2 t2]. simpl in *.
    by eapply staged_app.
  - simpl. eapply staged_weaken; [exact Hm | lia | lia].
Qed.

Lemma Staged_weaken {A} (lo hi lo' hi' : nat) (m : M A) :
  Staged order lo hi m -> (lo' <= lo)%nat -> (hi <= hi')%nat -> Staged order lo' hi' m.
Proof. intros Hm Hlo Hhi h. by eapply staged_weaken. Qed.

End Staging.

Lemma Staged_method_outcome (order : list Stage) (env : Env) (lo hi : nat)
    (l : loc) (name : string) (args : list Value) (kw : kwargs) :
  Staged order lo hi (fun h => lift (method env h l name args kw) h).
Proof. intros h. destruct (method env h l name args kw); apply staged_nil. Qed.

(** Splits [Staged o lo hi (bind m f)] at the least position [k] at which
    [m] can be shown to stay within [lo] and [k]. *)
Ltac staging :=
  lazymatch goal with
  | |- Staged _ _ _ (bind _ _) => staging_bind
  | |- Staged _ _ _ (ret _) => apply Staged_ret
  | |- Staged _ _ _ (raise _) => apply Staged_raise
  | |- Staged _ _ _ (lift _) => apply Staged_lift
  | |- Staged _ _ _ (alloc _) => apply Staged_alloc
  | |- Staged _ _ _ (deref _) => apply Staged_deref
  | |- Staged _ _ _ (setattr _ _ _) => apply Staged_setattr
  | |- Staged _ _ _ (emit _) =>
      apply Staged_emit; lazy; first [exact I | lia]
  | |- Staged _ _ _ (fun h => lift _ h) => apply Staged_method_outcome
  | |- Staged _ _ _ (if ?b then _ else _) => destruct b; staging
  | |- Staged _ _ _ (match ?x with _ => _ end) => destruct x; staging
  end
with staging_bind :=
  lazymatch goal with
  | |- Staged ?o ?lo ?hi (bind ?m ?f) =>
      let H := fresh "Hmid" in
      staging_mid o lo m lo 9%nat H;
      lazymatch type of H with
      | Staged _ _ ?k _ =>
          apply (Staged_bind o lo k hi m f);
            [lia | lia | exact H | clear H; intros ?; staging]
      end
  end
with staging_mid o lo m k fuel H :=
  lazymatch fuel with
  | O => fail "no position"
  | S ?n =>
      first [ assert (H : Staged o lo k m) by (solve [staging])
            | staging_mid o lo m (S k) n H ]
  end.

Ltac unfold_program :=
  unfold Test.main, Bootstrap.launch_experiment, Monolith.launch_experiment,
    Bootstrap.load_model_ckpt, Bootstrap.print_config, Bootstrap.print_model,
    Bootstrap.init_wandb, Monolith.resolve_checkpoint,
    Factories.make_datasets, Factories.make_dataloaders, Factories.make_model,
    Factories.parallelize_model, Factories.make_optimizer,
    Factories.make_scheduler, Factories.make_training_loss,
    Test.seed_everything, invoke, console, exists_, os_listdir, device_count,
    to_cuda_, call_method, new_generator, manual_seed, getattr_conf.

Lemma bootstrap_launch_staged (env : Env) (run : RunConfig)
    (data_loader optimizer scheduler trainer tester dataset model
       training_loss : Partial) :
  Staged code_order 0 8
    (Bootstrap.launch_experiment env run data_loader optimizer scheduler
       trainer tester dataset model training_loss).
Proof. unfold_program. staging. Qed.

Lemma monolith_launch_staged (env : Env) (run : RunConfig)
    (data_loader optimizer scheduler trainer tester dataset model
       training_loss : Partial) :
  Staged code_order 0 8
    (Monolith.launch_experiment env run data_loader optimizer scheduler
       trainer tester dataset model training_loss).
Proof. unfold_program. staging. Qed.

Lemma main_staged (env : Env) (cfg : Test.Cfg) :
  Staged code_order 0 8 (Test.main env cfg).
Proof. unfold_program. staging. Qed.

Lemma follows_not_after (order : list Stage) (t : list Event) (s1 s2 : Stage) :
  follows order t -> (rank order s1 < rank order s2)%nat ->
  ~ executes_after s1 s2 t.
Proof.
  intros Hord Hrank (i & j & Hij & Hi & Hj).
  specialize (Hord i j s2 s1 Hij Hi Hj). lia.
Qed.

Lemma code_order_particulars (t : list Event) :
  follows code_order t ->
  follows code_order t /\
  ~ executes_after ModelAssembler DatasetAssembler t /\
  ~ executes_after OptimizationAssembler DevicePlacement t.
Proof.
  intros Hord. split; [exact Hord |].
  split; apply (follows_not_after code_order); try exact Hord;
    vm_compute; lia.
Qed.

(** C1, as stated, fails: on the sample configuration, started by the
    test script, every stage executes, and the model is assembled
    before the dataset and the optimizer and the scheduler are built
    before the devices are inspected. *)
Lemma launch_not_in_spec_order :
  let t := evs (Test.main sample_env (sample_cfg false (Some "exp1")) []) in
  stages t =
    [Seeder; ModelAssembler; DatasetAssembler; OptimizationAssembler;
     OptimizationAssembler; DevicePlacement; DevicePlacement;
     LoaderAssembler; LoaderAssembler; LoaderAssembler;
     CheckpointResolver; RunDriverAssembler; DriverInvoke] /\
  ~ follows spec_order t /\
  executes_after DatasetAssembler ModelAssembler t /\
  executes_after DevicePlacement OptimizationAssembler t.
Proof.
  intros t.
  assert (Hst : stages t =
    [Seeder; ModelAssembler; DatasetAssembler; OptimizationAssembler;
     OptimizationAssembler; DevicePlacement; DevicePlacement;
     LoaderAssembler; LoaderAssembler; LoaderAssembler;
     CheckpointResolver; RunDriverAssembler; DriverInvoke])
    by (vm_compute; reflexivity).
  split; [exact Hst |]. unfold follows, executes_after. rewrite Hst.
  split; [| split].
  - intros Hord.
    specialize (Hord 1%nat 2%nat ModelAssembler DatasetAssembler).
    vm_compute in Hord. specialize (Hord ltac:(lia) eq_refl eq_refl). lia.
  - exists 1%nat, 2%nat. split; [lia | split; reflexivity].
  - exists 3%nat, 5%nat. split; [lia | split; reflexivity].
Qed.

(** C1, amended: in every launch, by the test script or by either entry
    point, in either mode and whether or not it fails on the way, the
    stages execute in the order Seeder, Model Assembler, Dataset
    Assembler, Optimization Assembler, Device Placement, Loader
    Assembler, Checkpoint Resolver, Run Driver Assembler, driver
    invocation; in particular model assembly never executes after
    dataset assembly, and optimizer and scheduler construction never
    executes after device placement. *)
Theorem launch_stage_order (env : Env) (cfg : Test.Cfg) (run : RunConfig)
    (data_loader optimizer scheduler trainer tester dataset model
       training_loss : Partial) (h : Heap) :
  let ordered t :=
    follows code_order t /\
    ~ executes_after ModelAssembler DatasetAssembler t /\
    ~ executes_after OptimizationAssembler DevicePlacement t in
  ordered (evs (Test.main env cfg h)) /\
  ordered (evs (Bootstrap.launch_experiment env run data_loader optimizer
                  scheduler trainer tester dataset model training_loss h)) /\
  ordered (evs (Monolith.launch_experiment env run data_loader optimizer
                  scheduler trainer tester dataset model training_loss h)).
Proof.
  intros ordered. subst ordered. cbv beta.
  split; [| split]; apply code_order_particulars.
  - apply (main_staged env cfg h).
  - apply (bootstrap_launch_staged env run data_loader optimizer scheduler
             trainer tester dataset model training_loss h).
  - apply (monolith_launch_staged env run data_loader optimizer scheduler
             trainer tester dataset model training_loss h).
Qed.

(** ** Events a launch never emits *)

Section Emitting.

Context (P : Event -> Prop).

Lemma Emits_ret {A} (a : A) : Emits P (ret a).
Proof. intros h. constructor. Qed.

Lemma Emits_raise {A} (e : exn) : Emits P (@raise A e).
Proof. intros h. constructor. Qed.

Lemma Emits_lift {A} (r : result A) : Emits P (lift r).
Proof. intros h. destruct r; constructor. Qed.

Lemma Emits_alloc (o : Obj) : Emits P (alloc o).
Proof. intros h. constructor. Qed.

Lemma Emits_deref (l : loc) : Emits P (deref l).
Proof. intros h. unfold deref. destruct (h !! l); constructor. Qed.

Lemma Emits_setattr (l : loc) (name : string) (v : Value) :
  Emits P (setattr l name v).
Proof. intros h. unfold setattr. destruct (h !! l); constructor. Qed.

Lemma Emits_emit (e : Event) : P e -> Emits P (emit e).
Proof. intros He h. by repeat constructor. Qed.

Lemma Emits_method_outcome (env : Env) (l : loc) (name : string)
    (args : list Value) (kw : kwargs) :
  Emits P (fun h => lift (method env h l name args kw) h).
Proof. intros h. destruct (method env h l name args kw); constructor. Qed.

Lemma Emits_bind {A B} (m : M A) (f : A -> M B) :
  Emits P m -> (forall a, Emits P (f a)) -> Emits P (bind m f).
Proof.
  intros Hm Hf h. unfold bind. specialize (Hm h).
  destruct (m h) as [[a|e] h1 t1]; simpl in Hm; [| exact Hm].
  specialize (Hf a h1). destruct (f a h1) as [r h2 t2]. simpl in *.
  by apply Forall_app.
Qed.

End Emitting.

Ltac unfold_calls :=
  unfold invoke, console, exists_, os_listdir, device_count, to_cuda_,
    call_method, new_generator, manual_seed, getattr_conf.

(** Follows the program, one statement at a time. *)
Ltac emitting :=
  lazymatch goal with
  | |- Emits _ (bind _ _) =>
      apply Emits_bind; [emitting | intros ?; emitting]
  | |- Emits _ (ret _) => apply Emits_ret
  | |- Emits _ (raise _) => apply Emits_raise
  | |- Emits _ (lift _) => apply Emits_lift
  | |- Emits _ (alloc _) => apply Emits_alloc
  | |- Emits _ (deref _) => apply Emits_deref
  | |- Emits _ (setattr _ _ _) => apply Emits_setattr
  | |- Emits _ (emit _) => apply Emits_emit; reflexivity
  | |- Emits _ (fun h => lift _ h) => apply Emits_method_outcome
  | |- Emits _ (if ?b then _ else _) => destruct b; emitting
  | |- Emits _ (match ?x with _ => _ end) => destruct x; emitting
  | |- Emits _ _ => progress (cbv zeta; unfold_calls); emitting
  end.

Lemma bootstrap_testing_quiet (env : Env) (run : RunConfig)
    (data_loader optimizer scheduler trainer tester dataset model
       training_loss : Partial) :
  training_mode run = false ->
  Emits (fun e => training_event e = false)
    (Bootstrap.launch_experiment env run data_loader optimizer scheduler
       trainer tester dataset model training_loss).
Proof. intros Htm. unfold_program. rewrite Htm. cbv iota. emitting. Qed.

Lemma monolith_testing_quiet (env : Env) (run : RunConfig)
    (data_loader optimizer scheduler trainer tester dataset model
       training_loss : Partial) :
  training_mode run = false ->
  Emits (fun e => training_event e = false)
    (Monolith.launch_experiment env run data_loader optimizer scheduler
       trainer tester dataset model training_loss).
Proof. intros Htm. unfold_program. rewrite Htm. cbv iota. emitting. Qed.

Lemma bootstrap_training_quiet (env : Env) (run : RunConfig)
    (data_loader optimizer scheduler trainer tester dataset model
       training_loss : Partial) :
  training_mode run = true ->
  Emits (fun e => testing_event e = false)
    (Bootstrap.launch_experiment env run data_loader optimizer scheduler
       trainer tester dataset model training_loss).
Proof. intros Htm. unfold_program. rewrite Htm. cbv iota. emitting. Qed.

Lemma monolith_training_quiet (env : Env) (run : RunConfig)
    (data_loader optimizer scheduler trainer tester dataset model
       training_loss : Partial) :
  training_mode run = true ->
  Emits (fun e => testing_event e = false)
    (Monolith.launch_experiment env run data_loader optimizer scheduler
       trainer tester dataset model training_loss).
Proof. intros Htm. unfold_program. rewrite Htm. cbv iota. emitting. Qed.

(** ** The driver *)

Lemma merge_kwargs_disjoint (a b : kwargs) :
  bool_decide (a ##ₘ b) = true -> merge_kwargs a b = Ok (a ∪ b).
Proof. intros H. unfold merge_kwargs. by rewrite H. Qed.

Ltac solve_disjoint :=
  refine (bool_decide_eq_true_1 _ _); vm_compute; reflexivity.

Lemma invocations_app (c : Component) (t1 t2 : list Event) :
  invocations c (t1 ++ t2) = invocations c t1 ++ invocations c t2.
Proof. apply omap_app. Qed.

Lemma method_calls_app (name : string) (t1 t2 : list Event) :
  method_calls name (t1 ++ t2) = method_calls name t1 ++ method_calls name t2.
Proof. apply omap_app. Qed.

Lemma quiet_invocations (c : Component) (t : list Event) :
  c = CTrainer \/ c = CTester -> Forall quiet t -> invocations c t = [].
Proof.
  intros Hc Ht. unfold invocations.
  induction Ht as [|e t He _ IH]; [reflexivity |].
  cbn [omap list_omap]. rewrite IH. destruct e; try reflexivity. simpl.
  match goal with
  | |- context [decide (?c' = c)] => destruct (decide (c' = c)) as [-> |]
  end; [| reflexivity].
  unfold quiet in He. destruct Hc as [-> | ->]; discriminate He.
Qed.

Lemma quiet_method_calls (name : string) (t : list Event) :
  name = "train" \/ name = "test" -> Forall quiet t -> method_calls name t = [].
Proof.
  intros Hname Ht. unfold method_calls.
  induction Ht as [|e t He _ IH]; [reflexivity |].
  cbn [omap list_omap]. rewrite IH. destruct e; try reflexivity. simpl.
  match goal with
  | |- context [String.eqb ?n name] => destruct (String.eqb_spec n name) as [-> |]
  end; [| reflexivity].
  unfold quiet in He. destruct Hname as [-> | ->]; discriminate He.
Qed.

Lemma bind_lift_Ok {A B} (a : A) (f : A -> M B) (h : Heap) :
  bind (lift (Ok a)) f h = f a h.
Proof. unfold bind, lift, ret. by destruct (f a h). Qed.

Lemma bind_ext {A B} (m : M A) (f g : A -> M B) (h : Heap) :
  (forall a h', f a h' = g a h') -> bind m f h = bind m g h.
Proof.
  intros H. unfold bind.
  destruct (m h) as [[a|e] h1 t1]; [by rewrite H | reflexivity].
Qed.

Lemma Yields_Emits {A} (P : Event -> Prop) (m : M A) :
  Emits P m -> Yields P (fun _ => True) m.
Proof. intros Hm h. by split. Qed.

Lemma Yields_ret {A} (P : Event -> Prop) (a : A) : Yields P (eq a) (ret a).
Proof. intros h. split; [constructor | by intros a' [= <-]]. Qed.

Lemma Yields_to_cuda (P : Event -> Prop) (env : Env) (v : Value) :
  P (EvToCuda v) -> Yields P (eq (to_cuda_result env v)) (to_cuda_ env v).
Proof.
  intros Hv h. split; [by repeat constructor | by intros a' [= <-]].
Qed.

(** The result of checkpoint resolution does not depend on the heap. *)
Lemma resolve_checkpoint_any_heap (env : Env) (load_from : option string)
    (tm : bool) (h : Heap) :
  res (Monolith.resolve_checkpoint env load_from tm h) =
  res (Monolith.resolve_checkpoint env load_from tm []).
Proof.
  unfold Monolith.resolve_checkpoint.
  destruct load_from as [lf|]; [| reflexivity].
  destruct (endswith lf ".ckpt"); run_py.
  - by destruct (path_exists env (to_absolute_path env lf)).
  - destruct (listdir env (to_absolute_path env ("runs/" +:+ lf +:+ "/")))
      as [files|e]; run_py; [| reflexivity].
    destruct (length (sorted (List.filter (Monolith.eligible tm) files)) <? 1)%nat;
      [reflexivity |].
    by destruct (last (sorted (List.filter (Monolith.eligible tm) files))).
Qed.

Lemma Yields_resolve_checkpoint (env : Env) (load_from : option string)
    (tm : bool) :
  Yields quiet
    (fun ckpt =>
       res (Monolith.resolve_checkpoint env load_from tm []) = Ok ckpt)
    (Monolith.resolve_checkpoint env load_from tm).
Proof.
  intros h. split.
  - revert h. change (Emits quiet (Monolith.resolve_checkpoint env load_from tm)).
    unfold Monolith.resolve_checkpoint. emitting.
  - intros ckpt. by rewrite resolve_checkpoint_any_heap.
Qed.

Section Driving.

Context (env : Env) (c : Component) (p : Partial) (name : string)
  (expected entry : kwargs -> Prop).
Hypothesis Hc : c = CTrainer \/ c = CTester.
Hypothesis Hname : name = "train" \/ name = "test".

Lemma drives_raise (e : exn) (h : Heap) (t : list Event) :
  Forall quiet t ->
  drives env c p name expected entry (MkOutcome (Raise e) h t).
Proof.
  intros Ht. left. simpl.
  by rewrite quiet_invocations, quiet_method_calls.
Qed.

Lemma drives_prefix (r : result unit) (h : Heap) (t1 t2 : list Event) :
  Forall quiet t1 ->
  drives env c p name expected entry (MkOutcome r h t2) ->
  drives env c p name expected entry (MkOutcome r h (t1 ++ t2)).
Proof.
  intros Ht [(Hi & Hm & Hr) | (kw & Hi & He & Hrun)]; simpl in *.
  - left. simpl.
    by rewrite invocations_app, method_calls_app, Hi, Hm,
      quiet_invocations, quiet_method_calls.
  - right. exists kw. simpl.
    rewrite invocations_app, method_calls_app, quiet_invocations,
      quiet_method_calls by done.
    split; [exact Hi |]. split; [exact He |].
    destruct (target p [] (effective (bound p) kw)) as [o|e]; [| exact Hrun].
    destruct Hrun as (h' & K & Hh & HK & Hm & Hl & Hres).
    exists h', K. rewrite last_app, Hl. by repeat split.
Qed.

Lemma Ends_raise (e : exn) :
  Ends (drives env c p name expected entry) (raise e).
Proof. intros h. apply drives_raise. constructor. Qed.

Lemma Ends_bind {A} (Q : A -> Prop) (m : M A) (f : A -> M unit) :
  Yields quiet Q m ->
  (forall a, Q a -> Ends (drives env c p name expected entry) (f a)) ->
  Ends (drives env c p name expected entry) (bind m f).
Proof.
  intros Hm Hf h. unfold bind. destruct (Hm h) as [Hq HQ].
  destruct (m h) as [[a|e] h1 t1]; simpl in *.
  - specialize (Hf a (HQ a eq_refl) h1). destruct (f a h1) as [r h2 t2].
    by apply drives_prefix.
  - by apply drives_raise.
Qed.

(** The last two statements of a launch: the driver is built, then
    started. *)
Lemma drives_driver (kw K : kwargs) (h : Heap) :
  expected kw -> entry K ->
  drives env c p name expected entry
    (bind (invoke c p [] kw) (fun driver => call_method env driver name K) h).
Proof.
  intros He HK. right. exists kw.
  unfold invoke, call_method. unfold bind, emit, lift, alloc, ret, raise.
  destruct (target p [] (effective (bound p) kw)) as [o|e].
  - destruct (method env (heap_add h o) (length h) name [] K) as [[]|e] eqn:Hrun;
      simpl; (destruct (decide (c = c)); [| done]);
      (destruct (String.eqb_spec name name); [| done]);
      (split; [reflexivity | split; [exact He |]]); exists h, K;
      rewrite Hrun; by repeat split.
  - simpl. destruct (decide (c = c)); [| done]. by repeat split.
Qed.

Lemma drives_driver_merged (kw K : kwargs) (h : Heap) :
  expected kw -> entry K ->
  drives env c p name expected entry
    (bind (invoke c p [] kw)
       (fun driver =>
          bind (lift (Ok K)) (fun K' => call_method env driver name K')) h).
Proof.
  intros He HK.
  rewrite (bind_ext _ _ (fun driver => call_method env driver name K))
    by (intros; apply bind_lift_Ok).
  by apply drives_driver.
Qed.

End Driving.

Ltac unfold_stages :=
  unfold Bootstrap.launch_experiment, Monolith.launch_experiment,
    Bootstrap.load_model_ckpt, Bootstrap.print_config, Bootstrap.print_model,
    Bootstrap.init_wandb, Factories.make_datasets, Factories.make_dataloaders,
    Factories.make_model, Factories.parallelize_model,
    Factories.make_optimizer, Factories.make_scheduler,
    Factories.make_training_loss.

(** Follows a launch up to its driver stage: every statement before it
    emits no event of the driver stage. *)
Ltac ending :=
  lazymatch goal with
  | |- Ends _ (bind (lift (merge_kwargs _ _)) _) => idtac
  | |- Ends _ (bind (invoke CTrainer _ _ _) _) => idtac
  | |- Ends _ (bind (invoke CTester _ _ _) _) => idtac
  | |- Ends _ (bind (ret _) _) =>
      eapply Ends_bind;
        [auto | auto | apply Yields_ret | intros ? <-; ending]
  | |- Ends _ (bind (to_cuda_ _ _) _) =>
      eapply Ends_bind;
        [auto | auto | apply Yields_to_cuda; reflexivity | intros ? <-; ending]
  | |- Ends _ (bind (Monolith.resolve_checkpoint _ _ _) _) =>
      eapply Ends_bind;
        [auto | auto | apply Yields_resolve_checkpoint
        | let H := fresh "Hckpt" in intros ? H; cbv beta in H; ending]
  | |- Ends _ (bind _ _) =>
      eapply Ends_bind;
        [auto | auto | apply Yields_Emits; emitting | intros ? _; ending]
  | |- Ends _ (raise _) => apply Ends_raise; auto
  | |- Ends _ (if ?b then _ else _) => destruct b; ending
  | |- Ends _ (match ?x with _ => _ end) => destruct x; ending
  end.

(** The driver stage itself. *)
Ltac driving :=
  let h := fresh "h" in
  intros h;
  repeat (rewrite merge_kwargs_disjoint by (vm_compute; reflexivity);
          rewrite ?bind_lift_Ok);
  first [apply drives_driver | apply drives_driver_merged]; auto.

Lemma bootstrap_training_drives (env : Env) (run : RunConfig)
    (data_loader optimizer scheduler trainer tester dataset model
       training_loss : Partial) :
  training_mode run = true ->
  Ends
    (drives env CTrainer trainer "train" (fun kw => asdict run ⊆ kw)
       (eq {[ "epochs" := VInt (epochs run);
              "val_every" := VInt (val_every run);
              "visualize_every" := VInt (viz_every run);
              "visualize_train_every" := VInt (viz_train_every run);
              "visualize_n_samples" := VInt (viz_num_samples run) ]}))
    (Bootstrap.launch_experiment env run data_loader optimizer scheduler
       trainer tester dataset model training_loss).
Proof.
  intros Htm. unfold_stages. rewrite Htm. cbv zeta iota. ending.
  all: driving.
  all: apply map_union_subseteq_r; solve_disjoint.
Qed.

Lemma monolith_training_drives (env : Env) (run : RunConfig)
    (data_loader optimizer scheduler trainer tester dataset model
       training_loss : Partial) :
  training_mode run = true ->
  Ends
    (drives env CTrainer trainer "train" (fun kw => asdict run ⊆ kw)
       (fun K =>
          exists ckpt,
            res (Monolith.resolve_checkpoint env (load_from run) true []) =
              Ok ckpt /\
            K = {[ "epochs" := VInt (epochs run);
                   "val_every" := VInt (val_every run);
                   "visualize_every" := VInt (viz_every run);
                   "visualize_train_every" := VInt (viz_train_every run);
                   "visualize_n_samples" := VInt (viz_num_samples run);
                   "model_ckpt_path" := of_optional_str ckpt ]}))
    (Monolith.launch_experiment env run data_loader optimizer scheduler
       trainer tester dataset model training_loss).
Proof.
  intros Htm. unfold_stages. rewrite Htm. cbv zeta iota. ending.
  all: driving.
  all: try match goal with
           | H : res _ = Ok ?ckpt |- ex _ =>
               exists ckpt; split; [exact H | reflexivity]
           end.
  all: apply map_union_subseteq_r; solve_disjoint.
Qed.

Lemma bootstrap_testing_drives (env : Env) (run : RunConfig)
    (data_loader optimizer scheduler trainer tester dataset model
       training_loss : Partial) :
  training_mode run = false ->
  Ends
    (drives env CTester tester "test"
       (fun kw => kw !! "training_loss" = Some (to_cuda_result env VNone))
       (eq ({[ "visualize_every" := VInt (viz_every run) ]} ∪ asdict run)))
    (Bootstrap.launch_experiment env run data_loader optimizer scheduler
       trainer tester dataset model training_loss).
Proof.
  intros Htm. unfold_stages. rewrite Htm. cbv zeta iota. ending.
  all: driving.
  all: apply lookup_union_Some_raw; right; split; by simplify_map_eq.
Qed.

Lemma monolith_testing_drives (env : Env) (run : RunConfig)
    (data_loader optimizer scheduler trainer tester dataset model
       training_loss : Partial) :
  training_mode run = false ->
  Ends
    (drives env CTester tester "test"
       (fun kw => kw !! "training_loss" = Some (to_cuda_result env VNone))
       (eq ({[ "visualize_every" := VInt (viz_every run) ]} ∪ asdict run)))
    (Monolith.launch_experiment env run data_loader optimizer scheduler
       trainer tester dataset model training_loss).
Proof.
  intros Htm. unfold_stages. rewrite Htm. cbv zeta iota. ending.
  all: driving.
  all: by simplify_map_eq.
Qed.

(** What [drives] says of the calls of the driver class and of its
    entry point. *)
Lemma drives_calls (env : Env) (c : Component) (p : Partial) (name : string)
    (expected entry : kwargs -> Prop) (out : Outcome unit) :
  drives env c p name expected entry out ->
  (forall a kw, (a, kw) ∈ invocations c (evs out) ->
     invocations c (evs out) = [([], kw)] /\ expected kw) /\
  (forall kw, invocations c (evs out) = [([], kw)] ->
     is_ok (target p [] (effective (bound p) kw)) = true ->
     exists K, entry K /\ method_calls name (evs out) = [([], K)]) /\
  (method_calls name (evs out) <> [] ->
     exists kw, invocations c (evs out) = [([], kw)] /\
                is_ok (target p [] (effective (bound p) kw)) = true) /\
  (is_ok (res out) = true -> method_calls name (evs out) <> []).
Proof.
  intros [(Hi & Hm & Hr) | (kw0 & Hi & He & Hrun)].
  - rewrite Hi, Hm, Hr. split; [| split; [| split]]; try done.
    intros a kw Hin. by apply elem_of_nil in Hin.
  - rewrite Hi. split; [| split; [| split]].
    + intros a kw Hin. apply list_elem_of_singleton in Hin as [= -> ->].
      by split.
    + intros kw [= <-] Hok.
      destruct (target p [] (effective (bound p) kw0)); [| discriminate].
      destruct Hrun as (h' & K & _ & HK & Hm & _). by exists K.
    + intros Hcalled. exists kw0. split; [reflexivity |].
      destruct (target p [] (effective (bound p) kw0)); [reflexivity |].
      by destruct Hrun as [Hm _].
    + intros Hok.
      destruct (target p [] (effective (bound p) kw0)).
      * destruct Hrun as (h' & K & _ & _ & -> & _). discriminate.
      * destruct Hrun as [_ Hr]. rewrite Hr in Hok. discriminate.
Qed.

(** C6, as stated, fails in training mode: on the sample configuration
    the launch succeeds and [train] is called with five keywords, none
    of which is the seed of the run descriptor. *)
Lemma train_without_run_descriptor :
  let run := sample_run true None in
  let out := Bootstrap.launch_experiment sample_env run sample_loader
               sample_optimizer sample_cosine sample_trainer sample_tester
               sample_dataset sample_model sample_loss [] in
  res out = Ok tt /\
  exists kw, method_calls "train" (evs out) = [([], kw)] /\
             asdict run !! "seed" = Some (VInt 42) /\
             kw !! "seed" = None /\
             ~ asdict run ⊆ kw.
Proof.
  intros run out. split; [reflexivity |].
  eexists. split; [reflexivity |].
  split; [reflexivity |]. split; [reflexivity |].
  intros Hsub.
  assert (Hseed : asdict run !! "seed" = Some (VInt 42)) by reflexivity.
  eapply lookup_weaken in Hseed; [| exact Hsub]. discriminate Hseed.
Qed.

(** C6, amended: once every assembly stage has succeeded and the driver
    has been built, in testing mode [test] is called once, with
    [visualize_every] and the fields of the run descriptor merged in as
    keywords; in training mode [train] is called once, with exactly
    [epochs], [val_every], [visualize_every], [visualize_train_every]
    and [visualize_n_samples] (and, in the monolithic entry point,
    [model_ckpt_path], the checkpoint the resolution gave), and the
    fields of the run descriptor are among the keywords of the
    trainer's constructor instead.  The driver is built at most once,
    and its entry point is called in no other case. *)
Theorem driver_keywords (env : Env) (run : RunConfig)
    (data_loader optimizer scheduler trainer tester dataset model
       training_loss : Partial) (h : Heap) :
  let bootstrap :=
    evs (Bootstrap.launch_experiment env run data_loader optimizer scheduler
           trainer tester dataset model training_loss h) in
  let monolith :=
    evs (Monolith.launch_experiment env run data_loader optimizer scheduler
           trainer tester dataset model training_loss h) in
  let built (p : Partial) (kw : kwargs) :=
    is_ok (target p [] (effective (bound p) kw)) = true in
  let only_when_built (c : Component) (p : Partial) (name : string)
      (t : list Event) :=
    (length (invocations c t) <= 1)%nat /\
    (method_calls name t <> [] ->
     exists kw, invocations c t = [([], kw)] /\ built p kw) in
  if training_mode run then
    (forall kw, invocations CTrainer bootstrap = [([], kw)] ->
       built trainer kw ->
       asdict run ⊆ kw /\
       method_calls "train" bootstrap =
         [([], {[ "epochs" := VInt (epochs run);
                  "val_every" := VInt (val_every run);
                  "visualize_every" := VInt (viz_every run);
                  "visualize_train_every" := VInt (viz_train_every run);
                  "visualize_n_samples" := VInt (viz_num_samples run) ]})]) /\
    (forall kw, invocations CTrainer monolith = [([], kw)] ->
       built trainer kw ->
       asdict run ⊆ kw /\
       exists ckpt,
         res (Monolith.resolve_checkpoint env (load_from run) true []) =
           Ok ckpt /\
         method_calls "train" monolith =
           [([], {[ "epochs" := VInt (epochs run);
                    "val_every" := VInt (val_every run);
                    "visualize_every" := VInt (viz_every run);
                    "visualize_train_every" := VInt (viz_train_every run);
                    "visualize_n_samples" := VInt (viz_num_samples run);
                    "model_ckpt_path" := of_optional_str ckpt ]})]) /\
    only_when_built CTrainer trainer "train" bootstrap /\
    only_when_built CTrainer trainer "train" monolith
  else
    (forall kw, invocations CTester bootstrap = [([], kw)] ->
       built tester kw ->
       method_calls "test" bootstrap =
         [([], {[ "visualize_every" := VInt (viz_every run) ]} ∪ asdict run)]) /\
    (forall kw, invocations CTester monolith = [([], kw)] ->
       built tester kw ->
       method_calls "test" monolith =
         [([], {[ "visualize_every" := VInt (viz_every run) ]} ∪ asdict run)]) /\
    only_when_built CTester tester "test" bootstrap /\
    only_when_built CTester tester "test" monolith.
Proof.
  cbv zeta.
  assert (Hone : forall (c : Component) (t : list Event)
                   (expected : kwargs -> Prop),
    (forall a kw, (a, kw) ∈ invocations c t ->
       invocations c t = [([], kw)] /\ expected kw) ->
    (length (invocations c t) <= 1)%nat /\
    forall kw, invocations c t = [([], kw)] -> expected kw).
  { intros c t expected Hall. split.
    - destruct (invocations c t) as [|[a kw] l] eqn:Hi; [simpl; lia |].
      destruct (Hall a kw) as [Heq _]; [by left |].
      apply (f_equal length) in Heq. simpl in *. lia.
    - intros kw Hi. apply (Hall [] kw). rewrite Hi. by left. }
  destruct (training_mode run) eqn:Htm.
  - destruct (drives_calls _ _ _ _ _ _ _
                (bootstrap_training_drives env run data_loader optimizer
                   scheduler trainer tester dataset model training_loss
                   Htm h)) as (Hall & Hentry & Honly & _).
    destruct (drives_calls _ _ _ _ _ _ _
                (monolith_training_drives env run data_loader optimizer
                   scheduler trainer tester dataset model training_loss
                   Htm h)) as (Hall' & Hentry' & Honly' & _).
    destruct (Hone _ _ _ Hall) as [Hle Hexp].
    destruct (Hone _ _ _ Hall') as [Hle' Hexp'].
    split; [| split; [| by split]].
    + intros kw Hi Hok. split; [by apply Hexp |].
      by destruct (Hentry kw Hi Hok) as (K & <- & HK).
    + intros kw Hi Hok. split; [by apply Hexp' |].
      destruct (Hentry' kw Hi Hok) as (K & (ckpt & Hckpt & ->) & HK).
      by exists ckpt.
  - destruct (drives_calls _ _ _ _ _ _ _
                (bootstrap_testing_drives env run data_loader optimizer
                   scheduler trainer tester dataset model training_loss
                   Htm h)) as (Hall & Hentry & Honly & _).
    destruct (drives_calls _ _ _ _ _ _ _
                (monolith_testing_drives env run data_loader optimizer
                   scheduler trainer tester dataset model training_loss
                   Htm h)) as (Hall' & Hentry' & Honly' & _).
    destruct (Hone _ _ _ Hall) as [Hle _].
    destruct (Hone _ _ _ Hall') as [Hle' _].
    split; [| split; [| by split]].
    + intros kw Hi Hok. by destruct (Hentry kw Hi Hok) as (K & <- & HK).
    + intros kw Hi Hok. by destruct (Hentry' kw Hi Hok) as (K & <- & HK).
Qed.

Ltac computed :=
  match goal with
  | |- ?l = _ => let v := eval vm_compute in l in change l with v
  end; reflexivity.

Lemma driver_keywords_witness :
  let training := sample_run true None in
  let testing := sample_run false (Some "exp1") in
  let launched (run : RunConfig) :=
    evs (Bootstrap.launch_experiment sample_env run sample_loader
           sample_optimizer sample_cosine sample_trainer sample_tester
           sample_dataset sample_model sample_loss []) in
  let launched' (run : RunConfig) :=
    evs (Monolith.launch_experiment sample_env run sample_loader
           sample_optimizer sample_cosine sample_trainer sample_tester
           sample_dataset sample_model sample_loss []) in
  method_calls "train" (launched training) =
    [([], {[ "epochs" := VInt 10; "val_every" := VInt 1;
             "visualize_every" := VInt 5; "visualize_train_every" := VInt 5;
             "visualize_n_samples" := VInt 4 ]})] /\
  (exists ckpt,
     method_calls "train" (launched' training) =
       [([], {[ "epochs" := VInt 10; "val_every" := VInt 1;
                "visualize_every" := VInt 5; "visualize_train_every" := VInt 5;
                "visualize_n_samples" := VInt 4;
                "model_ckpt_path" := of_optional_str ckpt ]})]) /\
  method_calls "test" (launched testing) =
    [([], {[ "visualize_every" := VInt 5 ]} ∪ asdict testing)] /\
  method_calls "test" (launched' testing) =
    [([], {[ "visualize_every" := VInt 5 ]} ∪ asdict testing)].
Proof.
  cbv zeta.
  pose proof (driver_keywords sample_env (sample_run true None) sample_loader
                sample_optimizer sample_cosine sample_trainer sample_tester
                sample_dataset sample_model sample_loss []) as Htrain.
  pose proof (driver_keywords sample_env (sample_run false (Some "exp1"))
                sample_loader sample_optimizer sample_cosine sample_trainer
                sample_tester sample_dataset sample_model sample_loss [])
    as Htest.
  cbv zeta in Htrain, Htest.
  change (training_mode (sample_run true None)) with true in Htrain.
  change (training_mode (sample_run false (Some "exp1"))) with false in Htest.
  cbv iota in Htrain, Htest.
  destruct Htrain as (Hb & Hm & _). destruct Htest as (Hb' & Hm' & _).
  split; [| split; [| split]].
  - refine (proj2 (Hb _ _ _)); [computed | reflexivity].
  - edestruct Hm as (_ & ckpt & _ & Hcall); [computed | reflexivity |].
    exists ckpt. exact Hcall.
  - refine (Hb' _ _ _); [computed | reflexivity].
  - refine (Hm' _ _ _); [computed | reflexivity].
Defined.

(** C10: in training mode [make_training_loss] calls the loss's deferred
    constructor once, without arguments, and returns the instance it
    built; in testing mode it returns [None] and calls nothing.  In a
    launch in testing mode, by either entry point and whether or not it
    fails on the way, the loss's deferred constructor is never called,
    the tester's constructor is called at most once, and whenever it is
    called its [training_loss] keyword is what [to_cuda_] gave for that
    [None]: [None] itself when [to_cuda_] returns [None] for [None].
    A launch that returns has called the tester's constructor. *)
Theorem training_loss_contract (env : Env) (run : RunConfig)
    (data_loader optimizer scheduler trainer tester dataset model
       training_loss : Partial) (h : Heap) :
  let bootstrap :=
    Bootstrap.launch_experiment env run data_loader optimizer scheduler
      trainer tester dataset model training_loss h in
  let monolith :=
    Monolith.launch_experiment env run data_loader optimizer scheduler
      trainer tester dataset model training_loss h in
  let null_loss (out : Outcome unit) :=
    invocations CLoss (evs out) = [] /\
    (length (invocations CTester (evs out)) <= 1)%nat /\
    (forall a kw, (a, kw) ∈ invocations CTester (evs out) ->
       a = [] /\
       kw !! "training_loss" = Some (to_cuda_result env VNone) /\
       (to_cuda_result env VNone = VNone ->
        kw !! "training_loss" = Some VNone)) /\
    (is_ok (res out) = true -> invocations CTester (evs out) <> []) in
  invocations CLoss (evs (Factories.make_training_loss true training_loss h)) =
    [([], ∅)] /\
  (forall o,
     target training_loss [] (effective (bound training_loss) ∅) = Ok o ->
     Factories.make_training_loss true training_loss h =
       MkOutcome (Ok (Some (length h))) (h ++ [o])
         [EvCall CLoss (bound training_loss) [] ∅]) /\
  Factories.make_training_loss false training_loss h = MkOutcome (Ok None) h [] /\
  (training_mode run = false -> null_loss bootstrap /\ null_loss monolith).
Proof.
  cbv zeta. split; [| split; [| split; [reflexivity |]]].
  - unfold Factories.make_training_loss. run_py.
    case_call training_loss; reflexivity.
  - intros o Hcall. unfold Factories.make_training_loss. run_py.
    rewrite Hcall. reflexivity.
  - intros Htm.
    assert (Hnull : forall out : Outcome unit,
      Forall (fun e => training_event e = false) (evs out) ->
      drives env CTester tester "test"
        (fun kw => kw !! "training_loss" = Some (to_cuda_result env VNone))
        (eq ({[ "visualize_every" := VInt (viz_every run) ]} ∪ asdict run))
        out ->
      invocations CLoss (evs out) = [] /\
      (length (invocations CTester (evs out)) <= 1)%nat /\
      (forall a kw, (a, kw) ∈ invocations CTester (evs out) ->
         a = [] /\
         kw !! "training_loss" = Some (to_cuda_result env VNone) /\
         (to_cuda_result env VNone = VNone ->
          kw !! "training_loss" = Some VNone)) /\
      (is_ok (res out) = true -> invocations CTester (evs out) <> [])).
    { intros out Hquiet Hdrives. split.
      - clear Hdrives. unfold invocations.
        induction Hquiet as [|e t He _ IH]; [reflexivity |].
        cbn [omap list_omap]. rewrite IH.
        destruct e; try reflexivity. simpl.
        match goal with
        | |- context [decide (?c = CLoss)] =>
            destruct (decide (c = CLoss)) as [-> |]
        end; [discriminate He | reflexivity].
      - destruct (drives_calls _ _ _ _ _ _ _ Hdrives)
          as (Hall & _ & Honly & Hret).
        split; [| split].
        + destruct (invocations CTester (evs out)) as [|[a kw] l] eqn:Hi;
            [simpl; lia |].
          destruct (Hall a kw) as [Heq _]; [by left |].
          apply (f_equal length) in Heq. simpl in *. lia.
        + intros a kw Hin. destruct (Hall a kw Hin) as [Heq Hloss].
          rewrite Heq in Hin. apply list_elem_of_singleton in Hin as [= ->].
          split; [reflexivity |]. split; [exact Hloss |].
          intros Hnone. by rewrite Hloss, Hnone.
        + intros Hok Hnil. destruct (Honly (Hret Hok)) as (kw & Hi & _).
          rewrite Hi in Hnil. discriminate. }
    split; apply Hnull.
    + by apply bootstrap_testing_quiet.
    + by apply bootstrap_testing_drives.
    + by apply monolith_testing_quiet.
    + by apply monolith_testing_drives.
Qed.

Lemma training_loss_contract_witness :
  let out := Bootstrap.launch_experiment sample_env (sample_run false None)
               sample_loader sample_optimizer sample_cosine sample_trainer
               sample_tester sample_dataset sample_model sample_loss [] in
  invocations CLoss (evs out) = [] /\
  exists kw, invocations CTester (evs out) = [([], kw)] /\
             kw !! "training_loss" = Some VNone.
Proof.
  cbv zeta.
  destruct (training_loss_contract sample_env (sample_run false None)
              sample_loader sample_optimizer sample_cosine sample_trainer
              sample_tester sample_dataset sample_model sample_loss [])
    as (_ & _ & _ & Hlaunch).
  destruct (Hlaunch eq_refl) as [(Hloss & _ & Hkw & _) _].
  split; [exact Hloss |].
  eexists. split; [computed |].
  refine (proj2 (proj2 (Hkw [] _ _)) eq_refl).
  match goal with
  | |- _ ∈ ?l => let v := eval vm_compute in l in change l with v
  end.
  by left.
Defined.

(** * More properties of the factories *)

(** With at most one device [parallelize_model] gives back the model it
    was given, allocates nothing and never calls
    [TransparentDataParallel]; with more than one it calls it once, on
    that model, and returns the new wrapper. *)
Theorem parallelize_model_by_device_count (env : Env) (model : loc) (h : Heap) :
  let out := Factories.parallelize_model env model h in
  ((cuda_device_count env <= 1)%Z ->
     res out = Ok model /\ heap out = h /\
     invocations CDataParallel (evs out) = []) /\
  ((1 < cuda_device_count env)%Z ->
     invocations CDataParallel (evs out) = [([VRef model], ∅)] /\
     forall o,
       TransparentDataParallel env [VRef model] (effective ∅ ∅) = Ok o ->
       res out = Ok (length h) /\ heap out = h ++ [o]).
Proof.
  unfold Factories.parallelize_model. split; intros Hn.
  - run_py. replace (1 <? cuda_device_count env)%Z with false
      by (symmetry; apply Z.ltb_ge; lia).
    run_py. by repeat split.
  - run_py. replace (1 <? cuda_device_count env)%Z with true
      by (symmetry; apply Z.ltb_lt; lia).
    run_py. simpl.
    destruct (TransparentDataParallel env [VRef model] (effective ∅ ∅));
      run_py; (split; [reflexivity |]).
    + intros o' [= <-]. split; reflexivity.
    + intros o'. discriminate.
Qed.

Lemma parallelize_model_by_device_count_witness :
  res (Factories.parallelize_model sample_env 0%nat []) = Ok 0%nat /\
  heap (Factories.parallelize_model sample_env 0%nat []) = [] /\
  invocations CDataParallel
    (evs (Factories.parallelize_model sample_env 0%nat [])) = [].
Proof.
  apply (proj1 (parallelize_model_by_device_count sample_env 0%nat [])).
  simpl. lia.
Defined.

(** [make_model] stops before the model's deferred constructor is
    called, with nothing allocated, when the configuration of the
    dataset cannot be used: when [just] raises, as it does for a
    keyword bound to a live instance, [make_model] raises the same
    exception; a configuration without [img_dim] gives
    [AttributeError]; an [img_dim] that is [None] or a string gives
    [TypeError]. *)
Theorem make_model_bad_configuration (model_partial dataset : Partial)
    (h : Heap) :
  let out := Factories.make_model model_partial dataset h in
  let stopped (e : exn) :=
    out = MkOutcome (Raise e) h [EvConsole "Loading model..."] in
  (forall e, just dataset = Raise e -> stopped e) /\
  (forall conf, just dataset = Ok conf -> conf !! "img_dim" = None ->
     exists msg, stopped (AttributeError msg)) /\
  (forall conf v, just dataset = Ok conf -> conf !! "img_dim" = Some v ->
     v = VNone \/ (exists s, v = VStr s) ->
     exists msg, stopped (TypeError msg)).
Proof.
  cbv zeta. unfold Factories.make_model. split; [| split].
  - by intros e ->.
  - intros conf -> Hnone. run_py. rewrite Hnone. by eexists.
  - intros conf v -> Hsome Hv. run_py. rewrite Hsome.
    destruct Hv as [-> | [s ->]]; by eexists.
Qed.

Lemma make_model_bad_configuration_witness :
  (exists msg,
     Factories.make_model sample_model sample_model [] =
       MkOutcome (Raise (AttributeError msg)) []
         [EvConsole "Loading model..."]) /\
  (exists msg,
     Factories.make_model sample_model
       (MkPartial {[ "img_dim" := VInt 32; "transform" := VRef 0 ]}
          (keeps ["Dataset"])) [] =
       MkOutcome (Raise (HydraZenUnsupportedPrimitiveError msg)) []
         [EvConsole "Loading model..."]) /\
  (exists msg,
     Factories.make_model sample_model
       (MkPartial {[ "img_dim" := VStr "32" ]} (keeps ["Dataset"])) [] =
       MkOutcome (Raise (TypeError msg)) [] [EvConsole "Loading model..."]).
Proof.
  split; [| split].
  - exact (proj1 (proj2 (make_model_bad_configuration sample_model
                           sample_model [])) _ eq_refl eq_refl).
  - eexists.
    exact (proj1 (make_model_bad_configuration sample_model
                    (MkPartial {[ "img_dim" := VInt 32; "transform" := VRef 0 ]}
                       (keeps ["Dataset"])) [])
             _ eq_refl).
  - exact (proj2 (proj2 (make_model_bad_configuration sample_model
                           (MkPartial {[ "img_dim" := VStr "32" ]}
                              (keeps ["Dataset"])) []))
             _ (VStr "32") eq_refl eq_refl (or_intror (ex_intro _ "32" eq_refl))).
Defined.

(** In every run of [make_dataloaders]: when [REPRODUCIBLE] is set, one
    generator is created and seeded with the seed before anything else,
    and every loader call carries that same generator; when it is not
    set, no generator is created or seeded and every loader call
    carries [generator=None]. *)
Theorem make_dataloaders_generator (env : Env) (p : Partial)
    (train val test : option loc) (tm : bool) (sd : Z) (h : Heap) :
  let out := Factories.make_dataloaders env p train val test tm sd h in
  if REPRODUCIBLE env then
    (exists rest,
       evs out =
         EvCall CGenerator ∅ [] ∅
         :: EvMethod (length h) "manual_seed" [VInt sd] ∅ :: rest /\
       invocations CGenerator rest = [] /\
       method_calls "manual_seed" rest = []) /\
    Forall (carries_generator (VRef (length h)))
      (invocations CLoader (evs out))
  else
    invocations CGenerator (evs out) = [] /\
    method_calls "manual_seed" (evs out) = [] /\
    Forall (carries_generator VNone) (invocations CLoader (evs out)).
Proof.
  assert (Hg1 : forall g : Value,
    carries_generator g ([] : list Value, ({[ "generator" := g ]} : kwargs)))
    by (intros g; apply lookup_singleton_eq).
  assert (Hg3 : forall (g : Value) (a : list Value),
    carries_generator g
      (a, ({[ "generator" := g; "shuffle" := VBool false;
              "drop_last" := VBool false ]} : kwargs)))
    by (intros g a; apply lookup_insert_eq).
  unfold Factories.make_dataloaders.
  destruct (REPRODUCIBLE env); run_py; cbv [of_optional].
  - destruct (seed_fits sd); run_py.
    2: { split; [eexists; split; [reflexivity | split; reflexivity] |].
         constructor. }
    destruct tm; [destruct train as [tr|], val as [va|] | destruct test as [te|]];
      run_py; repeat (case_call p; run_py).
    all: split; [eexists; split; [reflexivity | split; reflexivity] |].
    all: repeat (constructor; try apply lookup_singleton_eq;
                 try apply lookup_insert_eq).
  - destruct tm; [destruct train as [tr|], val as [va|] | destruct test as [te|]];
      run_py; repeat (case_call p; run_py).
    all: split; [reflexivity | split; [reflexivity |]].
    all: repeat (constructor; try apply lookup_singleton_eq;
                 try apply lookup_insert_eq).
Qed.

(** [make_datasets] fails fast in training mode: when the class raises
    on the train split, that exception is raised, the val split is
    never attempted and nothing is allocated; when it raises on the val
    split, that exception is raised and no dataset is returned. *)
Theorem make_datasets_fail_fast (sd : Z) (p : Partial) (h : Heap) (e : exn) :
  let train_kw : kwargs := {[ "split" := VStr "train"; "seed" := VInt sd ]} in
  let val_kw : kwargs := {[ "split" := VStr "val"; "seed" := VInt sd ]} in
  let out := Factories.make_datasets true sd p h in
  (target p [] (effective (bound p) train_kw) = Raise e ->
     res out = Raise e /\ heap out = h /\
     invocations CDataset (evs out) = [([], train_kw)]) /\
  (forall o, target p [] (effective (bound p) train_kw) = Ok o ->
     target p [] (effective (bound p) val_kw) = Raise e ->
     res out = Raise e /\ heap out = h ++ [o] /\
     invocations CDataset (evs out) = [([], train_kw); ([], val_kw)]).
Proof.
  intros train_kw val_kw. subst train_kw val_kw.
  unfold Factories.make_datasets. split.
  - intros Htrain. run_py. rewrite Htrain. run_py. by repeat split.
  - intros o Htrain Hval. run_py. rewrite Htrain. run_py. rewrite Hval.
    run_py. by repeat split.
Qed.

Lemma make_datasets_fail_fast_witness :
  res (Factories.make_datasets true 42 sample_broken_dataset []) =
    Raise (RuntimeError "corrupt archive") /\
  heap (Factories.make_datasets true 42 sample_broken_dataset []) = [] /\
  invocations CDataset
    (evs (Factories.make_datasets true 42 sample_broken_dataset [])) =
    [([], {[ "split" := VStr "train"; "seed" := VInt 42 ]})].
Proof.
  apply (proj1 (make_datasets_fail_fast 42 sample_broken_dataset []
                  (RuntimeError "corrupt archive"))).
  reflexivity.
Defined.

(** * More properties of checkpoint resolution *)

(** The outcome of the resolution of a run identifier, from the listing
    of its directory. *)
Lemma resolve_run_identifier_outcome (env : Env) (lf : string) (tm : bool)
    (files : list string) (h : Heap) :
  endswith lf ".ckpt" = false ->
  listdir env (to_absolute_path env ("runs/" +:+ lf +:+ "/")) = Ok files ->
  Monolith.resolve_checkpoint env (Some lf) tm h =
    MkOutcome
      (match last (sorted (List.filter (Monolith.eligible tm) files)) with
       | Some f =>
           Ok (Some (to_absolute_path env (os_path_join "runs" [lf; f])))
       | None =>
           Raise (ValueError ("No model found in runs/" +:+ lf +:+ "/"))
       end) h
      [EvListdir (to_absolute_path env ("runs/" +:+ lf +:+ "/"))].
Proof.
  intros Hsuffix Hlist. unfold Monolith.resolve_checkpoint.
  rewrite Hsuffix. run_py. rewrite Hlist. run_py.
  destruct (sorted (List.filter (Monolith.eligible tm) files)) as [|x l];
    [reflexivity |].
  change (length (x :: l) <? 1)%nat with false. cbv iota.
  destruct (last (x :: l)) eqn:Hlast; [reflexivity |].
  apply last_None in Hlast. discriminate.
Qed.

(** Checkpoint resolution leaves the heap as it is, its result and its
    events do not depend on the heap, and it queries the file system at
    most once: not at all for a null [load_from], with one
    [os.path.exists] for a direct path, with one [os.listdir] for a run
    identifier. *)
Theorem resolve_checkpoint_footprint (env : Env) (load_from : option string)
    (tm : bool) (h : Heap) :
  let out := Monolith.resolve_checkpoint env load_from tm h in
  heap out = h /\
  res out = res (Monolith.resolve_checkpoint env load_from tm []) /\
  evs out =
    match load_from with
    | None => []
    | Some lf =>
        if endswith lf ".ckpt" then [EvExists (to_absolute_path env lf)]
        else [EvListdir (to_absolute_path env ("runs/" +:+ lf +:+ "/"))]
    end.
Proof.
  unfold Monolith.resolve_checkpoint.
  destruct load_from as [lf|]; [| by repeat split].
  destruct (endswith lf ".ckpt"); run_py.
  - destruct (path_exists env (to_absolute_path env lf)); by repeat split.
  - destruct (listdir env (to_absolute_path env ("runs/" +:+ lf +:+ "/")))
      as [files|e]; run_py; [| by repeat split].
    destruct (length (sorted (List.filter (Monolith.eligible tm) files)) <? 1)%nat;
      [by repeat split |].
    destruct (last (sorted (List.filter (Monolith.eligible tm) files)));
      by repeat split.
Qed.

(** When the directory of the run identifier cannot be listed, the
    exception of [os.listdir] is the one the resolution raises. *)
Theorem resolve_checkpoint_unlistable (env : Env) (lf : string) (tm : bool)
    (h : Heap) (e : exn) :
  endswith lf ".ckpt" = false ->
  listdir env (to_absolute_path env ("runs/" +:+ lf +:+ "/")) = Raise e ->
  Monolith.resolve_checkpoint env (Some lf) tm h =
    MkOutcome (Raise e) h
      [EvListdir (to_absolute_path env ("runs/" +:+ lf +:+ "/"))].
Proof.
  intros Hsuffix Hlist. unfold Monolith.resolve_checkpoint.
  rewrite Hsuffix. run_py. rewrite Hlist. reflexivity.
Qed.

Lemma resolve_checkpoint_unlistable_witness :
  Monolith.resolve_checkpoint sample_env (Some "exp9") false [] =
    MkOutcome (Raise (FileNotFoundError "/home/user/project/runs/exp9")) []
      [EvListdir "/home/user/project/runs/exp9"].
Proof.
  apply (resolve_checkpoint_unlistable sample_env "exp9" false []);
    reflexivity.
Defined.

Lemma eligible_testing_training (f : string) :
  Monolith.eligible false f = true -> Monolith.eligible true f = true.
Proof.
  unfold Monolith.eligible. simpl. rewrite andb_true_r.
  intros H. by apply andb_true_iff in H as [-> _].
Qed.

(** Training mode never resolves to an earlier checkpoint than testing
    mode: when a run identifier resolves in testing mode, to the file
    [f], it also resolves in training mode, to a file [g] that is [f]
    or comes after it in the order of [sorted]. *)
Theorem resolve_checkpoint_training_not_earlier (env : Env) (lf f : string)
    (files : list string) (h : Heap) :
  endswith lf ".ckpt" = false ->
  listdir env (to_absolute_path env ("runs/" +:+ lf +:+ "/")) = Ok files ->
  last (sorted (List.filter (Monolith.eligible false) files)) = Some f ->
  res (Monolith.resolve_checkpoint env (Some lf) false h) =
    Ok (Some (to_absolute_path env (os_path_join "runs" [lf; f]))) /\
  exists g,
    res (Monolith.resolve_checkpoint env (Some lf) true h) =
      Ok (Some (to_absolute_path env (os_path_join "runs" [lf; g]))) /\
    str_le f g.
Proof.
  intros Hsuffix Hlist Hf.
  rewrite !(resolve_run_identifier_outcome env lf _ files h Hsuffix Hlist).
  simpl. rewrite Hf. split; [reflexivity |].
  destruct (last_sorted_max _ _ Hf) as [Hin _].
  assert (Hin' : f ∈ List.filter (Monolith.eligible true) files).
  { apply list_elem_of_In, filter_In.
    apply list_elem_of_In, filter_In in Hin as [Hfiles Hel].
    split; [exact Hfiles | by apply eligible_testing_training]. }
  destruct (last (sorted (List.filter (Monolith.eligible true) files)))
    as [g|] eqn:Hg.
  - exists g. split; [reflexivity |].
    by apply (last_sorted_max _ _ Hg).
  - apply last_None in Hg. apply (proj1 (sorted_nil_iff _)) in Hg.
    rewrite Hg in Hin'.
    by apply elem_of_nil in Hin'.
Qed.

Lemma resolve_checkpoint_training_not_earlier_witness :
  res (Monolith.resolve_checkpoint sample_env (Some "exp1") false []) =
    Ok (Some (to_absolute_path sample_env
                (os_path_join "runs" ["exp1"; "z.ckpt"]))) /\
  exists g,
    res (Monolith.resolve_checkpoint sample_env (Some "exp1") true []) =
      Ok (Some (to_absolute_path sample_env (os_path_join "runs" ["exp1"; g])))
    /\ str_le "z.ckpt" g.
Proof.
  apply (resolve_checkpoint_training_not_earlier sample_env "exp1" "z.ckpt"
           ["a.ckpt"; "last.ckpt"; "z.ckpt"; "notes.txt"] []);
    [reflexivity | reflexivity | by vm_compute].
Defined.

Lemma endswith_slash_cons (c : ascii) (s : string) :
  s <> "" -> endswith (String c s) "/" = endswith s "/".
Proof.
  intros Hs. destruct s as [|c' s']; [done |].
  unfold endswith. cbn [String.length]. simpl Nat.leb. simpl Nat.sub.
  rewrite Nat.sub_0_r. reflexivity.
Qed.

Lemma endswith_slash_app (p s : string) :
  s <> "" -> endswith (p +:+ s) "/" = endswith s "/".
Proof.
  intros Hs. induction p as [|c p IH]; [reflexivity |].
  change (String c p +:+ s) with (String c (p +:+ s)).
  rewrite endswith_slash_cons; [exact IH |].
  destruct p; [exact Hs | discriminate].
Qed.

(** Where the checkpoint of a run identifier lies.  For an identifier
    that is not empty and neither starts nor ends with a slash, the
    path returned is [runs/<identifier>/<file>], made absolute: the
    file is in the directory that was listed.  For an identifier that
    starts with a slash, [os.path.join] drops [runs]: the path returned
    is [<identifier>/<file>], outside the directory that was listed. *)
Theorem resolve_checkpoint_location (env : Env) (lf f : string) (tm : bool)
    (files : list string) (h : Heap) :
  endswith lf ".ckpt" = false ->
  listdir env (to_absolute_path env ("runs/" +:+ lf +:+ "/")) = Ok files ->
  last (sorted (List.filter (Monolith.eligible tm) files)) = Some f ->
  startswith f "/" = false ->
  lf <> "" ->
  endswith lf "/" = false ->
  let out := Monolith.resolve_checkpoint env (Some lf) tm h in
  evs out = [EvListdir (to_absolute_path env ("runs/" +:+ lf +:+ "/"))] /\
  (startswith lf "/" = false ->
     res out =
       Ok (Some (to_absolute_path env ("runs/" +:+ lf +:+ "/" +:+ f)))) /\
  (startswith lf "/" = true ->
     res out = Ok (Some (to_absolute_path env (lf +:+ "/" +:+ f)))).
Proof.
  intros Hsuffix Hlist Hf Hfile Hne Hslash out. subst out.
  rewrite (resolve_run_identifier_outcome env lf tm files h Hsuffix Hlist).
  simpl. rewrite Hf. split; [reflexivity |].
  unfold os_path_join. cbn [fold_left]. split; intros Hlead.
  - unfold join_step at 2. rewrite Hlead. cbn.
    unfold join_step. rewrite Hfile.
    change ("runs" +:+ "/" +:+ lf) with ("runs/" +:+ lf).
    rewrite (endswith_slash_app "runs/" lf Hne), Hslash. reflexivity.
  - unfold join_step at 2. rewrite Hlead.
    unfold join_step. rewrite Hfile, Hslash.
    destruct lf; [done | reflexivity].
Qed.

Lemma resolve_checkpoint_location_witness :
  res (Monolith.resolve_checkpoint sample_env (Some "exp1") false []) =
    Ok (Some (to_absolute_path sample_env
                ("runs/" +:+ "exp1" +:+ "/" +:+ "z.ckpt"))).
Proof.
  assert (Hne : "exp1" <> "") by discriminate.
  exact (proj1 (proj2 (resolve_checkpoint_location sample_env "exp1" "z.ckpt"
                         false ["a.ckpt"; "last.ckpt"; "z.ckpt"; "notes.txt"]
                         [] eq_refl eq_refl eq_refl eq_refl Hne eq_refl))
           eq_refl).
Defined.

(** * What a launch never does *)

(** The two modes never mix, in either entry point and whether or not
    the launch fails on the way: in testing mode no loss and no trainer
    is built and [train] is never called; in training mode no tester is
    built and [test] is never called. *)
Theorem launch_modes_exclusive (env : Env) (run : RunConfig)
    (data_loader optimizer scheduler trainer tester dataset model
       training_loss : Partial) (h : Heap) :
  let bootstrap :=
    evs (Bootstrap.launch_experiment env run data_loader optimizer scheduler
           trainer tester dataset model training_loss h) in
  let monolith :=
    evs (Monolith.launch_experiment env run data_loader optimizer scheduler
           trainer tester dataset model training_loss h) in
  (training_mode run = false ->
     Forall (fun e => training_event e = false) bootstrap /\
     Forall (fun e => training_event e = false) monolith) /\
  (training_mode run = true ->
     Forall (fun e => testing_event e = false) bootstrap /\
     Forall (fun e => testing_event e = false) monolith).
Proof.
  split; intros Htm; split.
  - by apply bootstrap_testing_quiet.
  - by apply monolith_testing_quiet.
  - by apply bootstrap_training_quiet.
  - by apply monolith_training_quiet.
Qed.

Lemma launch_modes_exclusive_witness :
  Forall (fun e => training_event e = false)
    (evs (Bootstrap.launch_experiment sample_env (sample_run false None)
            sample_loader sample_optimizer sample_cosine sample_trainer
            sample_tester sample_dataset sample_model sample_loss [])).
Proof.
  exact (proj1 (proj1 (launch_modes_exclusive sample_env (sample_run false None)
                         sample_loader sample_optimizer sample_cosine
                         sample_trainer sample_tester sample_dataset
                         sample_model sample_loss []) eq_refl)).
Defined.

Lemma main_testing_quiet (env : Env) (cfg : Test.Cfg) :
  Emits (fun e => training_event e = false) (Test.main env cfg).
Proof.
  unfold Test.main. apply Emits_bind.
  - unfold Test.seed_everything. emitting.
  - intros _. by apply bootstrap_testing_quiet.
Qed.

(** The test script always tests: whatever mode its configuration asks
    for, it builds no loss and no trainer and never calls [train], and
    its whole outcome is the one it has on the same configuration with
    the other mode. *)
Theorem main_ignores_training_mode (env : Env) (cfg : Test.Cfg) (b : bool)
    (h : Heap) :
  Forall (fun e => training_event e = false) (evs (Test.main env cfg h)) /\
  Test.main env (Test.set_run cfg (with_training_mode b (Test.cfg_run cfg))) h =
    Test.main env cfg h.
Proof.
  split; [apply main_testing_quiet | reflexivity].
Qed.

Lemma launch_never_tracks (env : Env) (run : RunConfig)
    (data_loader optimizer scheduler trainer tester dataset model
       training_loss : Partial) :
  USE_WANDB env = false ->
  Emits (fun e => tracker_event e = false)
    (Bootstrap.launch_experiment env run data_loader optimizer scheduler
       trainer tester dataset model training_loss) /\
  Emits (fun e => tracker_event e = false)
    (Monolith.launch_experiment env run data_loader optimizer scheduler
       trainer tester dataset model training_loss).
Proof.
  intros Hflag.
  split; unfold_program; rewrite Hflag; cbv iota; emitting.
Qed.

(** With [USE_WANDB] unset the experiment tracker is never touched, by
    either entry point or by the test script, in any run. *)
Theorem tracker_gated (env : Env) (cfg : Test.Cfg) (run : RunConfig)
    (data_loader optimizer scheduler trainer tester dataset model
       training_loss : Partial) (h : Heap) :
  USE_WANDB env = false ->
  Forall (fun e => tracker_event e = false)
    (evs (Bootstrap.launch_experiment env run data_loader optimizer scheduler
            trainer tester dataset model training_loss h)) /\
  Forall (fun e => tracker_event e = false)
    (evs (Monolith.launch_experiment env run data_loader optimizer scheduler
            trainer tester dataset model training_loss h)) /\
  Forall (fun e => tracker_event e = false) (evs (Test.main env cfg h)).
Proof.
  intros Hflag.
  split; [by apply launch_never_tracks |].
  split; [by apply launch_never_tracks |].
  unfold Test.main. apply Emits_bind.
  - unfold Test.seed_everything. emitting.
  - intros _. by apply launch_never_tracks.
Qed.

Lemma tracker_gated_witness :
  Forall (fun e => tracker_event e = false)
    (evs (Test.main sample_env (sample_cfg false None) [])).
Proof.
  apply (tracker_gated sample_env (sample_cfg false None)
           (sample_run false None) sample_loader sample_optimizer
           sample_cosine sample_trainer sample_tester sample_dataset
           sample_model sample_loss []).
  reflexivity.
Defined.

Lemma launch_never_seeds (env : Env) (run : RunConfig)
    (data_loader optimizer scheduler trainer tester dataset model
       training_loss : Partial) :
  REPRODUCIBLE env = false ->
  Emits (fun e => seeding_event e = false)
    (Bootstrap.launch_experiment env run data_loader optimizer scheduler
       trainer tester dataset model training_loss) /\
  Emits (fun e => seeding_event e = false)
    (Monolith.launch_experiment env run data_loader optimizer scheduler
       trainer tester dataset model training_loss).
Proof.
  intros Hflag.
  split; unfold_program; rewrite Hflag; cbv iota; emitting.
Qed.

(** With [REPRODUCIBLE] unset nothing is ever seeded: no
    [seed_everything], no generator, no [manual_seed], by either entry
    point or by the test script, in any run. *)
Theorem seeding_gated (env : Env) (cfg : Test.Cfg) (run : RunConfig)
    (data_loader optimizer scheduler trainer tester dataset model
       training_loss : Partial) (h : Heap) :
  REPRODUCIBLE env = false ->
  Forall (fun e => seeding_event e = false)
    (evs (Bootstrap.launch_experiment env run data_loader optimizer scheduler
            trainer tester dataset model training_loss h)) /\
  Forall (fun e => seeding_event e = false)
    (evs (Monolith.launch_experiment env run data_loader optimizer scheduler
            trainer tester dataset model training_loss h)) /\
  Forall (fun e => seeding_event e = false) (evs (Test.main env cfg h)).
Proof.
  intros Hflag.
  split; [by apply launch_never_seeds |].
  split; [by apply launch_never_seeds |].
  unfold Test.main. rewrite Hflag. apply Emits_bind.
  - emitting.
  - intros _. by apply launch_never_seeds.
Qed.

Lemma seeding_gated_witness :
  Forall (fun e => seeding_event e = false)
    (evs (Test.main sample_env_plain (sample_cfg false None) [])).
Proof.
  apply (seeding_gated sample_env_plain (sample_cfg false None)
           (sample_run false None) sample_loader sample_optimizer
           sample_cosine sample_trainer sample_tester sample_dataset
           sample_model sample_loss []).
  reflexivity.
Defined.

Lemma evs_bind_emit {B} (e : Event) (f : unit -> M B) (h : Heap) :
  evs (bind (emit e) f h) = e :: evs (f tt h).
Proof. unfold bind, emit. by destruct (f tt h). Qed.

Lemma launch_no_seed_everything (env : Env) (run : RunConfig)
    (data_loader optimizer scheduler trainer tester dataset model
       training_loss : Partial) :
  Emits (fun e => is_seed_everything e = false)
    (Bootstrap.launch_experiment env run data_loader optimizer scheduler
       trainer tester dataset model training_loss).
Proof. unfold_program. emitting. Qed.

(** With [REPRODUCIBLE] set the test script calls [seed_everything]
    with the seed of the configuration before anything else, and never
    again. *)
Theorem main_seeds_first (env : Env) (cfg : Test.Cfg) (h : Heap) :
  REPRODUCIBLE env = true ->
  exists rest,
    evs (Test.main env cfg h) =
      EvSeedEverything (seed (Test.cfg_run cfg)) :: rest /\
    Forall (fun e => is_seed_everything e = false) rest.
Proof.
  intros Hflag. unfold Test.main, Test.seed_everything. rewrite Hflag.
  rewrite evs_bind_emit. eexists. split; [reflexivity |].
  apply launch_no_seed_everything.
Qed.

Lemma main_seeds_first_witness :
  exists rest,
    evs (Test.main sample_env (sample_cfg true None) []) =
      EvSeedEverything 42 :: rest /\
    Forall (fun e => is_seed_everything e = false) rest.
Proof.
  apply (main_seeds_first sample_env (sample_cfg true None) []). reflexivity.
Defined.

(** * The base datasets *)

(** An effect that is not in a list of effects. *)
Ltac absent H :=
  repeat (apply elem_of_cons in H as [H | H]; [discriminate H |]);
  by apply elem_of_nil in H.

Ltac no_effect :=
  let H := fresh in
  split; [intros H; absent H | first [reflexivity | intros H; absent H]].

Section Datasets.

Context {Tensor : Type} (c : DatasetBase.Collaborators Tensor).

Lemma BaseDataset__init__outcome
    (dataset_root augment normalize split dataset_name seed debug tiny : Value)
    (ds : DatasetBase.BaseDataset) (t : list DatasetBase.Effect) :
  DatasetBase.BaseDataset__init__ c dataset_root augment normalize split
    dataset_name seed debug tiny = (DatasetBase.Done ds, t) ->
  exists samples labels,
    DatasetBase._load c dataset_root tiny split seed =
      DatasetBase.Done (samples, labels) /\
    let cache_dir :=
      os_path_join (DatasetBase.get_original_cwd c)
        ["data"; py_str dataset_name +:+ "_preprocessed"] in
    t = [DatasetBase.Load dataset_root tiny split seed;
         DatasetBase.Makedirs cache_dir] /\
    ds = DatasetBase.MkBaseDataset samples labels
           (py_and augment (VBool (py_eq split (VStr "train"))))
           normalize dataset_name debug cache_dir.
Proof.
  unfold DatasetBase.BaseDataset__init__, DatasetBase.bind, DatasetBase.call,
    DatasetBase.ret.
  destruct (DatasetBase._load c dataset_root tiny split seed)
    as [[samples labels]|e]; [| discriminate].
  destruct (DatasetBase.makedirs c _); [| discriminate].
  intros [= <- <-]. by exists samples, labels.
Qed.

(** A [BaseDataset] built with a boolean [augment] and a string [split]
    augments exactly when [augment] is set and the split is [train];
    its length is the number of samples [_load] returned, and the one
    directory it created is [data/<dataset_name>_preprocessed] under
    the original working directory. *)
Theorem BaseDataset_augments_on_train_only
    (dataset_root normalize dataset_name seed debug tiny : Value)
    (augment : bool) (split : string)
    (ds : DatasetBase.BaseDataset) (t : list DatasetBase.Effect) :
  DatasetBase.BaseDataset__init__ c dataset_root (VBool augment) normalize
    (VStr split) dataset_name seed debug tiny = (DatasetBase.Done ds, t) ->
  truthy (DatasetBase._augment ds) = augment && String.eqb split "train" /\
  (exists labels,
     DatasetBase._load c dataset_root tiny (VStr split) seed =
       DatasetBase.Done (DatasetBase._samples ds, labels) /\
     DatasetBase.__len__ ds = length (DatasetBase._samples ds)) /\
  omap (fun e => match e with DatasetBase.Makedirs p => Some p | _ => None end)
       t =
    [os_path_join (DatasetBase.get_original_cwd c)
       ["data"; py_str dataset_name +:+ "_preprocessed"]].
Proof.
  intros Hinit.
  destruct (BaseDataset__init__outcome _ _ _ _ _ _ _ _ _ _ Hinit)
    as (samples & labels & Hload & Ht & Hds).
  subst ds t. cbn. split; [| split; [| reflexivity]].
  - unfold py_and. simpl. destruct augment; reflexivity.
  - by exists labels.
Qed.

(** When [_load] raises, the constructor of a [BaseDataset] raises the
    same exception and creates no directory. *)
Theorem BaseDataset_load_failure
    (dataset_root augment normalize split dataset_name seed debug tiny : Value)
    (e : DatasetBase.error) :
  DatasetBase._load c dataset_root tiny split seed = DatasetBase.Failed e ->
  DatasetBase.BaseDataset__init__ c dataset_root augment normalize split
    dataset_name seed debug tiny =
    (DatasetBase.Failed e, [DatasetBase.Load dataset_root tiny split seed]).
Proof.
  intros Hload.
  unfold DatasetBase.BaseDataset__init__, DatasetBase.bind, DatasetBase.call.
  by rewrite Hload.
Qed.

Lemma ImageDataset__init__outcome
    (dataset_root dataset_name split seed augment normalize tiny debug : Value)
    (img_size : option (list Z))
    (ds : DatasetBase.ImageDataset) (t : list DatasetBase.Effect) :
  DatasetBase.ImageDataset__init__ c dataset_root dataset_name split seed
    img_size augment normalize tiny debug = (DatasetBase.Done ds, t) ->
  exists b,
    DatasetBase.BaseDataset__init__ c dataset_root dataset_name augment
      normalize split seed debug tiny = (DatasetBase.Done b, t) /\
    ds = DatasetBase.MkImageDataset b (default DatasetBase.IMG_SIZE img_size).
Proof.
  unfold DatasetBase.ImageDataset__init__.
  unfold DatasetBase.bind at 1.
  destruct (DatasetBase.BaseDataset__init__ c dataset_root dataset_name
              augment normalize split seed debug tiny) as [[b|e] t1] eqn:Hbase;
    [| discriminate].
  cbv zeta.
  destruct (DatasetBase.resize_accepts _); cbn; [| discriminate].
  destruct (DatasetBase.albumentations_installed c); cbn; [| discriminate].
  intros [= <- <-]. exists b. rewrite ?app_nil_r.
  split; [reflexivity |]. by destruct img_size.
Qed.

(** What the constructor of an [ImageDataset] hands to the base class:
    the arguments of [super().__init__] are positional and in another
    order than the parameters of the base class, so that the instance
    keeps [augment] as its [_normalize], [split] as its
    [_dataset_name], [_load] receives [normalize] as its split, the
    cache directory is named after [split], and [_augment] is
    [dataset_name and normalize == "train"]. *)
Theorem ImageDataset_arguments
    (dataset_root dataset_name split seed augment normalize tiny debug : Value)
    (img_size : option (list Z))
    (ds : DatasetBase.ImageDataset) (t : list DatasetBase.Effect) :
  DatasetBase.ImageDataset__init__ c dataset_root dataset_name split seed
    img_size augment normalize tiny debug = (DatasetBase.Done ds, t) ->
  DatasetBase._normalize (DatasetBase.base ds) = augment /\
  DatasetBase._dataset_name (DatasetBase.base ds) = split /\
  DatasetBase._augment (DatasetBase.base ds) =
    py_and dataset_name (VBool (py_eq normalize (VStr "train"))) /\
  DatasetBase._img_size ds = default DatasetBase.IMG_SIZE img_size /\
  t = [DatasetBase.Load dataset_root tiny normalize seed;
       DatasetBase.Makedirs
         (os_path_join (DatasetBase.get_original_cwd c)
            ["data"; py_str split +:+ "_preprocessed"])].
Proof.
  intros Hinit.
  destruct (ImageDataset__init__outcome _ _ _ _ _ _ _ _ _ _ _ Hinit)
    as (b & Hbase & ->).
  destruct (BaseDataset__init__outcome _ _ _ _ _ _ _ _ _ _ Hbase)
    as (samples & labels & _ & -> & ->).
  by repeat split.
Qed.

(** An [ImageDataset] built by its constructor with a boolean
    [normalize] never augments: no item goes through the augmentation
    pipeline, whatever [augment] and [split] were; and an item is
    normalized only when [augment] was truthy. *)
Theorem ImageDataset_never_augments
    (dataset_root dataset_name split seed augment tiny debug : Value)
    (normalize : bool) (img_size : option (list Z))
    (ds : DatasetBase.ImageDataset) (t : list DatasetBase.Effect) (index : Z) :
  DatasetBase.ImageDataset__init__ c dataset_root dataset_name split seed
    img_size augment (VBool normalize) tiny debug = (DatasetBase.Done ds, t) ->
  let effects := (DatasetBase.__getitem__ c ds index).2 in
  (DatasetBase.Augment ∉ effects) /\
  (DatasetBase.Normalize ∈ effects -> truthy augment = true).
Proof.
  intros Hinit.
  destruct (ImageDataset__init__outcome _ _ _ _ _ _ _ _ _ _ _ Hinit)
    as (b & Hbase & ->).
  destruct (BaseDataset__init__outcome _ _ _ _ _ _ _ _ _ _ Hbase)
    as (samples & labels & _ & _ & ->).
  assert (Hfalsy :
            truthy (py_and dataset_name
                      (VBool (py_eq (VBool normalize) (VStr "train")))) = false).
  { unfold py_and.
    destruct (truthy dataset_name) eqn:Hname; [| exact Hname].
    by destruct normalize. }
  unfold DatasetBase.__getitem__, DatasetBase.bind, DatasetBase.call,
    DatasetBase.ret, DatasetBase.raise.
  cbn [DatasetBase.base DatasetBase._augment DatasetBase._normalize
       DatasetBase._samples DatasetBase._labels DatasetBase._img_size].
  rewrite Hfalsy.
  destruct (DatasetBase.getitem_list _ index) as [sample|e]; cbn;
    [| no_effect].
  destruct (DatasetBase.read_image c sample) as [[img|]|e]; cbn;
    [| no_effect | no_effect].
  destruct (DatasetBase.resize c _ img) as [img'|e]; cbn; [| no_effect].
  destruct (truthy augment) eqn:Haugment; cbn.
  - destruct (DatasetBase.normalization c img') as [img''|e]; cbn;
      [| no_effect].
    destruct (DatasetBase.getitem_list _ index); cbn; no_effect.
  - destruct (DatasetBase.getitem_list _ index); cbn; no_effect.
Qed.

End Datasets.

Lemma ImageDataset_never_augments_witness :
  exists ds t,
    DatasetBase.ImageDataset__init__ sample_collaborators (VStr "/data")
      (VStr "mnist") (VStr "train") (VInt 42) None (VBool true) (VBool false)
      (VBool false) (VBool false) = (DatasetBase.Done ds, t) /\
    (DatasetBase.Augment ∉ (DatasetBase.__getitem__ sample_collaborators ds 0).2).
Proof.
  eexists _, _. split; [reflexivity |].
  exact (proj1 (ImageDataset_never_augments sample_collaborators
                  (VStr "/data") (VStr "mnist") (VStr "train") (VInt 42)
                  (VBool true) (VBool false) (VBool false) false None _ _ 0
                  eq_refl)).
Defined.

Section DatasetItems.

Context {Tensor : Type} (c : DatasetBase.Collaborators Tensor).

Lemma getitem_list_out_of_range {A} (l : list A) (i : Z) :
  (i < - Z.of_nat (length l) \/ Z.of_nat (length l) <= i)%Z ->
  DatasetBase.getitem_list l i =
    DatasetBase.Failed (DatasetBase.IndexError "list index out of range").
Proof.
  intros Hi. unfold DatasetBase.getitem_list. cbv zeta.
  destruct (Z.ltb_spec i 0) as [Hneg | Hneg].
  - destruct (Z.ltb_spec (i + Z.of_nat (length l)) 0) as [Hlow | Hlow];
      [reflexivity | lia].
  - destruct (Z.ltb_spec i 0) as [Hneg' | _]; [lia |].
    destruct (Z.leb_spec (Z.of_nat (length l)) i) as [Hhigh | Hhigh];
      [reflexivity | lia].
Qed.

Lemma getitem_list_negative {A} (l : list A) (i : Z) :
  (- Z.of_nat (length l) <= i < 0)%Z ->
  DatasetBase.getitem_list l i =
    DatasetBase.getitem_list l (i + Z.of_nat (length l)).
Proof.
  intros Hi. unfold DatasetBase.getitem_list. cbv zeta.
  assert (Hneg : (i <? 0)%Z = true) by (apply Z.ltb_lt; lia).
  assert (Hwrap : (i + Z.of_nat (length l) <? 0)%Z = false)
    by (apply Z.ltb_ge; lia).
  rewrite Hneg. cbv iota. rewrite !Hwrap. reflexivity.
Qed.

(** Indexing an [ImageDataset]: an index outside [-len, len) raises
    [IndexError] before any image is read; a negative index within
    range gives the item counted from the end, effects included. *)
Theorem ImageDataset_getitem_index (ds : DatasetBase.ImageDataset) (index : Z) :
  let len := Z.of_nat (DatasetBase.__len__ (DatasetBase.base ds)) in
  ((index < - len \/ len <= index)%Z ->
     DatasetBase.__getitem__ c ds index =
       (DatasetBase.Failed (DatasetBase.IndexError "list index out of range"),
        [])) /\
  ((- len <= index < 0)%Z ->
     length (DatasetBase._labels (DatasetBase.base ds)) =
       length (DatasetBase._samples (DatasetBase.base ds)) ->
     DatasetBase.__getitem__ c ds index =
       DatasetBase.__getitem__ c ds (index + len)).
Proof.
  unfold DatasetBase.__len__. split.
  - intros Hi. unfold DatasetBase.__getitem__, DatasetBase.bind.
    by rewrite getitem_list_out_of_range.
  - intros Hi Hlabels. unfold DatasetBase.__getitem__.
    rewrite (getitem_list_negative (DatasetBase._samples _)) by exact Hi.
    rewrite (getitem_list_negative (DatasetBase._labels _)) by lia.
    by rewrite Hlabels.
Qed.

(** What was read is not a tensor: [ValueError], and the image is
    neither resized nor transformed. *)
Theorem ImageDataset_getitem_not_tensor (ds : DatasetBase.ImageDataset)
    (index : Z) (sample : Value) :
  DatasetBase.getitem_list (DatasetBase._samples (DatasetBase.base ds)) index =
    DatasetBase.Done sample ->
  DatasetBase.read_image c sample = DatasetBase.Done None ->
  DatasetBase.__getitem__ c ds index =
    (DatasetBase.Failed (DatasetBase.ValueError "Image not loaded as a Tensor."),
     [DatasetBase.ReadImage sample]).
Proof.
  intros Hsample Hread.
  unfold DatasetBase.__getitem__, DatasetBase.bind, DatasetBase.call,
    DatasetBase.raise.
  by rewrite Hsample, Hread.
Qed.

(** [disable_augs] only removes the augmentation step: afterwards no
    item is augmented, the length is the same, calling it again changes
    nothing, and on a dataset that did not augment the items are what
    they were. *)
Theorem disable_augs_effect (ds : DatasetBase.ImageDataset) (index : Z) :
  let ds' :=
    DatasetBase.MkImageDataset (DatasetBase.disable_augs (DatasetBase.base ds))
      (DatasetBase._img_size ds) in
  (DatasetBase.Augment ∉ (DatasetBase.__getitem__ c ds' index).2) /\
  DatasetBase.__len__ (DatasetBase.base ds') =
    DatasetBase.__len__ (DatasetBase.base ds) /\
  DatasetBase.disable_augs (DatasetBase.base ds') = DatasetBase.base ds' /\
  (truthy (DatasetBase._augment (DatasetBase.base ds)) = false ->
   DatasetBase.__getitem__ c ds' index = DatasetBase.__getitem__ c ds index).
Proof.
  intros ds'. subst ds'. split; [| split; [reflexivity | split; [reflexivity |]]].
  - unfold DatasetBase.__getitem__, DatasetBase.bind, DatasetBase.call,
      DatasetBase.ret, DatasetBase.raise. cbn.
    destruct (DatasetBase.getitem_list _ index) as [sample|e]; cbn;
      [| intros H; absent H].
    destruct (DatasetBase.read_image c sample) as [[img|]|e]; cbn;
      [| intros H; absent H | intros H; absent H].
    destruct (DatasetBase.resize c _ img) as [img'|e]; cbn;
      [| intros H; absent H].
    destruct (truthy (DatasetBase._normalize (DatasetBase.base ds))); cbn.
    + destruct (DatasetBase.normalization c img') as [img''|e]; cbn;
        [| intros H; absent H].
      destruct (DatasetBase.getitem_list _ index); cbn; intros H; absent H.
    + destruct (DatasetBase.getitem_list _ index); cbn; intros H; absent H.
  - intros Hfalsy. unfold DatasetBase.__getitem__. cbn. by rewrite Hfalsy.
Qed.

(** Without [albumentations] the constructor of an [ImageDataset] never
    returns an instance, even when no augmentation is asked for.  When
    the base constructor succeeds, the samples have been loaded and the
    cache directory created before it raises: [ValueError] from the
    constructor of [transforms.Resize] when the image size has not one
    or two values, [ImportError] otherwise. *)
Theorem ImageDataset_needs_albumentations
    (dataset_root dataset_name split seed augment normalize tiny debug : Value)
    (img_size : option (list Z)) :
  DatasetBase.albumentations_installed c = false ->
  let out := DatasetBase.ImageDataset__init__ c dataset_root dataset_name
               split seed img_size augment normalize tiny debug in
  (forall ds, out.1 <> DatasetBase.Done ds) /\
  (forall b t,
     DatasetBase.BaseDataset__init__ c dataset_root dataset_name augment
       normalize split seed debug tiny = (DatasetBase.Done b, t) ->
     out =
       (DatasetBase.Failed
          (if DatasetBase.resize_accepts (default DatasetBase.IMG_SIZE img_size)
           then DatasetBase.ImportError
                  "Please install albumentations to use the augmentation pipeline."
           else DatasetBase.ValueError
                  "If size is a sequence, it should have 1 or 2 values"),
        [DatasetBase.Load dataset_root tiny normalize seed;
         DatasetBase.Makedirs
           (os_path_join (DatasetBase.get_original_cwd c)
              ["data"; py_str split +:+ "_preprocessed"])])).
Proof.
  intros Hmissing out. subst out. unfold DatasetBase.ImageDataset__init__.
  rewrite Hmissing. unfold DatasetBase.bind at 1 2. cbv zeta.
  replace (match img_size with
           | Some s => s
           | None => DatasetBase.IMG_SIZE
           end) with (default DatasetBase.IMG_SIZE img_size)
    by (by destruct img_size).
  split.
  - intros ds.
    destruct (DatasetBase.BaseDataset__init__ c dataset_root dataset_name
                augment normalize split seed debug tiny) as [[b|e] t1];
      [| discriminate].
    destruct (DatasetBase.resize_accepts _); discriminate.
  - intros b t Hbase. rewrite Hbase.
    destruct (BaseDataset__init__outcome c _ _ _ _ _ _ _ _ _ _ Hbase)
      as (samples & labels & _ & -> & _).
    destruct (DatasetBase.resize_accepts _); reflexivity.
Qed.

End DatasetItems.

Lemma ImageDataset_getitem_index_witness :
  DatasetBase.__getitem__ sample_collaborators
    (sample_image_dataset false false) 2 =
    (DatasetBase.Failed (DatasetBase.IndexError "list index out of range"), []).
Proof.
  apply (proj1 (ImageDataset_getitem_index sample_collaborators
                  (sample_image_dataset false false) 2)).
  right. vm_compute. discriminate.
Defined.


Lemma ImageDataset_getitem_not_tensor_witness :
  let c :=
    DatasetBase.MkCollaborators Z
      (fun _ _ _ _ => DatasetBase.Done ([], []))
      (fun _ => DatasetBase.Done tt) "/" true
      (fun _ => DatasetBase.Done None)
      (fun _ img => DatasetBase.Done img)
      (fun img => DatasetBase.Done img) (fun img => DatasetBase.Done img) in
  DatasetBase.__getitem__ c (sample_image_dataset false false) 0 =
    (DatasetBase.Failed (DatasetBase.ValueError "Image not loaded as a Tensor."),
     [DatasetBase.ReadImage (VStr "a.png")]).
Proof.
  intros c.
  exact (ImageDataset_getitem_not_tensor c (sample_image_dataset false false)
           0 (VStr "a.png") eq_refl eq_refl).
Defined.

Lemma disable_augs_effect_witness :
  let ds := sample_image_dataset true false in
  DatasetBase.__getitem__ sample_collaborators
    (DatasetBase.MkImageDataset (DatasetBase.disable_augs (DatasetBase.base ds))
       (DatasetBase._img_size ds)) 0 =
  DatasetBase.__getitem__ sample_collaborators ds 0.
Proof.
  intros ds.
  apply (disable_augs_effect sample_collaborators ds 0). reflexivity.
Defined.

Lemma BaseDataset_augments_on_train_only_witness :
  exists ds t,
    DatasetBase.BaseDataset__init__ sample_collaborators (VStr "/data")
      (VBool true) (VBool false) (VStr "val") (VStr "mnist") (VInt 42)
      (VBool false) (VBool false) = (DatasetBase.Done ds, t) /\
    truthy (DatasetBase._augment ds) = true && String.eqb "val" "train".
Proof.
  eexists _, _. split; [reflexivity |].
  exact (proj1 (BaseDataset_augments_on_train_only sample_collaborators
                  (VStr "/data") (VBool false) (VStr "mnist") (VInt 42)
                  (VBool false) (VBool false) true "val" _ _ eq_refl)).
Defined.

Lemma BaseDataset_load_failure_witness :
  let c :=
    DatasetBase.MkCollaborators Z
      (fun _ _ _ _ => DatasetBase.Failed (DatasetBase.OtherError "no such split"))
      (fun _ => DatasetBase.Done tt) "/" true
      (fun _ => DatasetBase.Done None)
      (fun _ img => DatasetBase.Done img)
      (fun img => DatasetBase.Done img) (fun img => DatasetBase.Done img) in
  DatasetBase.BaseDataset__init__ c (VStr "/data") (VBool true) (VBool false)
    (VStr "val") (VStr "mnist") (VInt 42) (VBool false) (VBool false) =
    (DatasetBase.Failed (DatasetBase.OtherError "no such split"),
     [DatasetBase.Load (VStr "/data") (VBool false) (VStr "val") (VInt 42)]).
Proof.
  intros c. apply (BaseDataset_load_failure c). reflexivity.
Defined.

Lemma ImageDataset_arguments_witness :
  exists ds t,
    DatasetBase.ImageDataset__init__ sample_collaborators (VStr "/data")
      (VStr "mnist") (VStr "train") (VInt 42) None (VBool true) (VBool false)
      (VBool false) (VBool false) = (DatasetBase.Done ds, t) /\
    DatasetBase._normalize (DatasetBase.base ds) = VBool true /\
    DatasetBase._dataset_name (DatasetBase.base ds) = VStr "train" /\
    t = [DatasetBase.Load (VStr "/data") (VBool false) (VBool false) (VInt 42);
         DatasetBase.Makedirs "/home/user/project/data/train_preprocessed"].
Proof.
  eexists _, _. split; [reflexivity |].
  destruct (ImageDataset_arguments sample_collaborators (VStr "/data")
              (VStr "mnist") (VStr "train") (VInt 42) (VBool true)
              (VBool false) (VBool false) (VBool false) None _ _ eq_refl)
    as (Hn & Hd & _ & _ & Ht).
  split; [exact Hn |]. split; [exact Hd | exact Ht].
Defined.

Lemma ImageDataset_needs_albumentations_witness :
  DatasetBase.ImageDataset__init__ sample_collaborators_bare (VStr "/data")
    (VStr "mnist") (VStr "test") (VInt 42) None (VBool false) (VBool false)
    (VBool false) (VBool false) =
    (DatasetBase.Failed
       (DatasetBase.ImportError
          "Please install albumentations to use the augmentation pipeline."),
     [DatasetBase.Load (VStr "/data") (VBool false) (VBool false) (VInt 42);
      DatasetBase.Makedirs "/home/user/project/data/test_preprocessed"]) /\
  DatasetBase.ImageDataset__init__ sample_collaborators_bare (VStr "/data")
    (VStr "mnist") (VStr "test") (VInt 42) (Some [32; 32; 3]%Z) (VBool false)
    (VBool false) (VBool false) (VBool false) =
    (DatasetBase.Failed
       (DatasetBase.ValueError
          "If size is a sequence, it should have 1 or 2 values"),
     [DatasetBase.Load (VStr "/data") (VBool false) (VBool false) (VInt 42);
      DatasetBase.Makedirs "/home/user/project/data/test_preprocessed"]).
Proof.
  split.
  - exact (proj2 (ImageDataset_needs_albumentations sample_collaborators_bare
                    (VStr "/data") (VStr "mnist") (VStr "test") (VInt 42)
                    (VBool false) (VBool false) (VBool false) (VBool false)
                    None eq_refl) _ _ eq_refl).
  - exact (proj2 (ImageDataset_needs_albumentations sample_collaborators_bare
                    (VStr "/data") (VStr "mnist") (VStr "test") (VInt 42)
                    (VBool false) (VBool false) (VBool false) (VBool false)
                    (Some [32; 32; 3]%Z) eq_refl) _ _ eq_refl).
Defined.

(** * The tracer widget *)

Lemma steps_snoc (self : Tracer.Tracer) (calls : list Tracer.Call)
    (call : Tracer.Call) :
  Tracer.steps self (calls ++ [call]) =
  Tracer.step (Tracer.steps self calls) call.
Proof. unfold Tracer.steps. by rewrite fold_left_app. Qed.

(** Nothing the application calls on the tracer erases its log: after
    any sequence of calls the log is what it was, followed by the
    messages written, in the order they were written. *)
Theorem tracer_log_accumulates (self : Tracer.Tracer)
    (calls : list Tracer.Call) :
  Tracer.rich_log (Tracer.steps self calls) =
  Tracer.rich_log self ++ omap Tracer.written calls.
Proof.
  induction calls as [|call calls IH] using rev_ind.
  - simpl. by rewrite app_nil_r.
  - rewrite steps_snoc, omap_app, app_assoc, <- IH.
    destruct call; simpl; by rewrite ?app_nil_r.
Qed.

(** The loading indicator follows the last [run] or [write]: it is on
    after a [run] that no [write] followed, off after a [write] that no
    [run] followed, and untouched when neither was called; [hang] never
    changes it. *)
Theorem tracer_loading (self : Tracer.Tracer) (calls : list Tracer.Call) :
  Tracer.loading (Tracer.steps self calls) =
  match last (List.filter (fun call => Tracer.is_run call || Tracer.is_write call)
                calls) with
  | Some Tracer.CallRun => true
  | Some _ => false
  | None => Tracer.loading self
  end.
Proof.
  induction calls as [|call calls IH] using rev_ind; [reflexivity |].
  rewrite steps_snoc, List.filter_app.
  destruct call; simpl.
  - rewrite app_nil_r. exact IH.
  - by rewrite last_snoc.
  - by rewrite last_snoc.
Qed.

(** The border and its title follow the last [run] or [hang]; writing
    to the tracer never changes them. *)
Theorem tracer_border (self : Tracer.Tracer) (calls : list Tracer.Call) :
  let s := Tracer.steps self calls in
  (Tracer.border s, Tracer.border_title s) =
  match last (List.filter (fun call => Tracer.is_run call || Tracer.is_hang call)
                calls) with
  | Some (Tracer.CallHang threw) =>
      let s' := Tracer.hang self threw in
      (Tracer.border s', Tracer.border_title s')
  | Some _ => (("solid", "green"), "Exception trace: running")
  | None => (Tracer.border self, Tracer.border_title self)
  end.
Proof.
  induction calls as [|call calls IH] using rev_ind; [reflexivity |].
  cbv zeta in *. rewrite steps_snoc, List.filter_app.
  destruct call; simpl.
  - by rewrite last_snoc.
  - by rewrite last_snoc.
  - rewrite app_nil_r. exact IH.
Qed.

(** * The outcome of a launch *)

Lemma drives_ends (env : Env) (c : Component) (p : Partial) (name : string)
    (expected entry : kwargs -> Prop) (out : Outcome unit) :
  drives env c p name expected entry out ->
  (method_calls name (evs out) <> [] ->
   exists kw o h' K,
     invocations c (evs out) = [([], kw)] /\
     target p [] (effective (bound p) kw) = Ok o /\
     heap out = h' ++ [o] /\
     method_calls name (evs out) = [([], K)] /\
     last (evs out) = Some (EvMethod (length h') name [] K) /\
     res out = method env (heap out) (length h') name [] K) /\
  (is_ok (res out) = true -> method_calls name (evs out) <> []).
Proof.
  intros Hdrives.
  split; [| by apply (drives_calls _ _ _ _ _ _ _ Hdrives)].
  destruct Hdrives as [(_ & Hm & _) | (kw & Hi & _ & Hrun)]; [done |].
  intros Hcalled.
  destruct (target p [] (effective (bound p) kw)) as [o|e] eqn:Hcall.
  - destruct Hrun as (h' & K & Hh & _ & Hm & Hl & Hres).
    by exists kw, o, h', K.
  - by destruct Hrun as [Hm _].
Qed.

(** Once a launch has called the entry point of its driver ([train] in
    training mode, [test] in testing mode), that call is the only one,
    its receiver is the instance the driver class has just built, it
    is the last thing the launch has done, and the launch ends as the
    call ends: it returns when the entry point returns and raises what
    the entry point raises.  A launch returns in no other way. *)
Theorem launch_ends_as_driver (env : Env) (run : RunConfig)
    (data_loader optimizer scheduler trainer tester dataset model
       training_loss : Partial) (h : Heap) :
  let c := if training_mode run then CTrainer else CTester in
  let p := if training_mode run then trainer else tester in
  let name := if training_mode run then "train" else "test" in
  let ends (out : Outcome unit) :=
    (method_calls name (evs out) <> [] ->
     exists kw o h' K,
       invocations c (evs out) = [([], kw)] /\
       target p [] (effective (bound p) kw) = Ok o /\
       heap out = h' ++ [o] /\
       method_calls name (evs out) = [([], K)] /\
       last (evs out) = Some (EvMethod (length h') name [] K) /\
       res out = method env (heap out) (length h') name [] K) /\
    (is_ok (res out) = true -> method_calls name (evs out) <> []) in
  ends (Bootstrap.launch_experiment env run data_loader optimizer scheduler
          trainer tester dataset model training_loss h) /\
  ends (Monolith.launch_experiment env run data_loader optimizer scheduler
          trainer tester dataset model training_loss h).
Proof.
  cbv zeta. destruct (training_mode run) eqn:Htm; split.
  - exact (drives_ends _ _ _ _ _ _ _
             (bootstrap_training_drives env run data_loader optimizer
                scheduler trainer tester dataset model training_loss Htm h)).
  - exact (drives_ends _ _ _ _ _ _ _
             (monolith_training_drives env run data_loader optimizer
                scheduler trainer tester dataset model training_loss Htm h)).
  - exact (drives_ends _ _ _ _ _ _ _
             (bootstrap_testing_drives env run data_loader optimizer
                scheduler trainer tester dataset model training_loss Htm h)).
  - exact (drives_ends _ _ _ _ _ _ _
             (monolith_testing_drives env run data_loader optimizer
                scheduler trainer tester dataset model training_loss Htm h)).
Qed.

Lemma launch_ends_as_driver_witness :
  let out := Bootstrap.launch_experiment sample_env (sample_run false None)
               sample_loader sample_optimizer sample_cosine sample_trainer
               sample_tester sample_dataset sample_model sample_loss [] in
  exists (h' : Heap) K,
    last (evs out) = Some (EvMethod (length h') "test" [] K) /\
    res out = method sample_env (heap out) (length h') "test" [] K.
Proof.
  cbv zeta.
  pose proof (launch_ends_as_driver sample_env (sample_run false None)
                sample_loader sample_optimizer sample_cosine sample_trainer
                sample_tester sample_dataset sample_model sample_loss [])
    as Hends.
  cbv zeta in Hends.
  change (training_mode (sample_run false None)) with false in Hends.
  cbv iota in Hends.
  destruct Hends as [[Hcalled _] _].
  destruct Hcalled as (kw & o & h' & K & _ & _ & _ & _ & Hlast & Hres).
  - match goal with
    | |- ?l <> _ => let v := eval vm_compute in l in change l with v
    end.
    discriminate.
  - exists h', K. split; [exact Hlast | exact Hres].
Defined.
